(** * WhatsApp chat analyzer: parser and aggregator

    A shallow embedding of [parse_chat], [analyze_chat] and [main] of
    [app.py] and of the earlier [parse_chat], [analyze_chat] and [main] of
    [whatsapp_analyzer.py], with the library calls they rely on: [re.match], [str.split], [str.strip],
    [int], [datetime.strptime] and the pandas operations boolean-mask
    selection, [value_counts], [groupby(...).size()] and [sort_values].

    Modelling conventions.
    - A Python [str] is a [list ascii]: the text is taken over the code
      points U+0000..U+00FF.  In that range [\d] is exactly ['0'..'9'],
      the white space of [str.strip] is U+0009..U+000D, U+001C..U+0020,
      U+0085 and U+00A0, and the white space [int] skips is the same
      without U+001C..U+001F.
    - Exceptions are values of [exn]; a computation that may raise has type
      [result A].  [try ... except ValueError] is [try_except_ValueError].
    - A pandas [Series] of counts is an association list in index order.
    - [datetime.strptime] follows CPython's [_strptime.py]: the format is
      turned into a regular expression, the whole token has to be consumed,
      and the calendar date has to exist. *)

From Stdlib Require Import List Ascii String ZArith Bool Lia Permutation Arith
  Sorted.
Import ListNotations.

Local Open Scope Z_scope.

(** ** Strings *)

Definition str := list ascii.

Definition lit (s : string) : str := list_ascii_of_string s.

Definition code (c : ascii) : Z := Z.of_nat (nat_of_ascii c).

Definition is_digit (c : ascii) : bool := (48 <=? code c) && (code c <=? 57).

Definition digit_value (c : ascii) : Z := code c - 48.

(** [str.isspace] on one character (code points below 256). *)
Definition is_space (c : ascii) : bool :=
  let n := code c in
  ((9 <=? n) && (n <=? 13)) || ((28 <=? n) && (n <=? 32))
  || (n =? 133) || (n =? 160).

Fixpoint drop_while (p : ascii -> bool) (s : str) : str :=
  match s with
  | [] => []
  | c :: s' => if p c then drop_while p s' else s
  end.

Definition lstrip (s : str) : str := drop_while is_space s.
Definition rstrip (s : str) : str := rev (drop_while is_space (rev s)).

(** [s.strip()] *)
Definition strip (s : str) : str := rstrip (lstrip s).

(** [s.split('\n')]: always at least one piece. *)
Fixpoint split_nl (s : str) : list str :=
  match s with
  | [] => [[]]
  | c :: s' =>
      if Ascii.eqb c "010"%char then [] :: split_nl s'
      else match split_nl s' with
           | h :: t => (c :: h) :: t
           | [] => [[c]]
           end
  end.

(** ** Exceptions *)

Inductive exn : Type :=
| ValueError
| TypeError
| KeyError.

Inductive result (A : Type) : Type :=
| Ok (a : A)
| Raise (e : exn).

Arguments Ok {A} a.
Arguments Raise {A} e.

Definition bind {A B : Type} (m : result A) (f : A -> result B) : result B :=
  match m with
  | Ok a => f a
  | Raise e => Raise e
  end.

Notation "x <- m ;; k" := (bind m (fun x => k))
  (at level 61, m at next level, right associativity).

Notation "' pat <- m ;; k" :=
  (bind m (fun x => match x with pat => k end))
  (at level 61, pat pattern, m at next level, right associativity).

(** [try: body  except ValueError: handler]; any other exception goes on. *)
Definition try_except_ValueError {A : Type} (body : result A) (handler : result A)
  : result A :=
  match body with
  | Ok a => Ok a
  | Raise ValueError => handler
  | Raise e => Raise e
  end.

(** ** [int(s)] on a string, base 10 *)

(** Digits with single underscores between them; [acc] is the value so far
    and the first character read has to be a digit. *)
Fixpoint int_digits (acc : Z) (s : str) : option Z :=
  match s with
  | [] => Some acc
  | c :: s' =>
      if is_digit c then int_digits (10 * acc + digit_value c) s'
      else if Ascii.eqb c "_"%char then
        match s' with
        | d :: s'' =>
            if is_digit d then int_digits (10 * acc + digit_value d) s''
            else None
        | [] => None
        end
      else None
  end.

Definition int_unsigned (s : str) : option Z :=
  match s with
  | c :: s' => if is_digit c then int_digits (digit_value c) s' else None
  | [] => None
  end.

(** The white space [int] skips at both ends of the literal: the ASCII
    white space U+0009..U+000D and U+0020, and the two white space
    characters above U+007F, U+0085 and U+00A0.  Unlike [str.strip] it does
    not skip U+001C..U+001F. *)
Definition is_int_space (c : ascii) : bool :=
  let n := code c in
  ((9 <=? n) && (n <=? 13)) || (n =? 32) || (n =? 133) || (n =? 160).

Definition int_strip (s : str) : str :=
  rev (drop_while is_int_space (rev (drop_while is_int_space s))).

Definition py_int (s : str) : result Z :=
  let t := int_strip s in
  let '(neg, body) :=
    match t with
    | c :: r =>
        if Ascii.eqb c "+"%char then (false, r)
        else if Ascii.eqb c "-"%char then (true, r)
        else (false, t)
    | [] => (false, t)
    end in
  match int_unsigned body with
  | Some n => Ok (if neg then - n else n)
  | None => Raise ValueError
  end.

(** ** Regular expressions with Python's backtracking semantics *)

Inductive regex : Type :=
| Lit (c : ascii)
| Rep (cls : ascii -> bool) (lo : nat) (hi : option nat)
| Cat (r1 r2 : regex)
| Alt (r1 r2 : regex)
| Group (r : regex).

Definition hi_open (hi : option nat) : bool :=
  match hi with
  | Some O => false
  | _ => true
  end.

Definition hi_pred (hi : option nat) : option nat := option_map Nat.pred hi.

(** Greedy repetition of a character class, between [lo] and [hi] times:
    take one more character when possible, give it back when the rest of
    the pattern, [k], fails. *)
Fixpoint rep {A : Type} (cls : ascii -> bool) (lo : nat) (hi : option nat)
  (s : str) (k : str -> option A) : option A :=
  let stop := if Nat.eqb lo 0 then k s else None in
  match s with
  | c :: s' =>
      if cls c && hi_open hi then
        match rep cls (Nat.pred lo) (hi_pred hi) s' k with
        | Some x => Some x
        | None => stop
        end
      else stop
  | [] => stop
  end.

(** The matcher in continuation-passing style.  [caps] are the groups
    closed so far, in order; the continuation gets the rest of the input.
    The alternatives of [Alt] are tried in order.  (No pattern below nests
    groups or puts a group inside an alternative.) *)
Fixpoint run {A : Type} (r : regex) (s : str) (caps : list str)
  (k : str -> list str -> option A) : option A :=
  match r with
  | Lit c =>
      match s with
      | c' :: s' => if Ascii.eqb c c' then k s' caps else None
      | [] => None
      end
  | Rep cls lo hi => rep cls lo hi s (fun s' => k s' caps)
  | Cat r1 r2 => run r1 s caps (fun s1 caps1 => run r2 s1 caps1 k)
  | Alt r1 r2 =>
      match run r1 s caps k with
      | Some x => Some x
      | None => run r2 s caps k
      end
  | Group r1 =>
      run r1 s caps
        (fun s' caps' =>
           k s' (caps' ++ [firstn (List.length s - List.length s') s]))
  end.

(** [re.match(pattern, s)]: anchored at the start only.  The result is the
    groups and the unmatched rest of [s]. *)
Definition re_match (r : regex) (s : str) : option (list str * str) :=
  run r s [] (fun rest caps => Some (caps, rest)).

(** The empty pattern. *)
Definition Eps : regex := Rep (fun _ => false) 0 (Some 0%nat).

Fixpoint cat_all (rs : list regex) : regex :=
  match rs with
  | [] => Eps
  | r :: rs' =>
      match rs' with
      | [] => r
      | _ :: _ => Cat r (cat_all rs')
      end
  end.

Definition text (s : string) : regex := cat_all (map Lit (lit s)).

Definition one (cls : ascii -> bool) : regex := Rep cls 1 (Some 1%nat).

Definition in_range (x y c : ascii) : bool :=
  (code x <=? code c) && (code c <=? code y).

Definition is_not (x c : ascii) : bool := negb (Ascii.eqb c x).

(** [.] matches everything but a newline. *)
Definition dot (c : ascii) : bool := negb (Ascii.eqb c "010"%char).

(** ** [datetime] *)

Record datetime : Type := mk_datetime {
  year : Z; month : Z; day : Z;
  hour : Z; minute : Z; second : Z; microsecond : Z
}.

Definition is_leap (y : Z) : bool :=
  (y mod 4 =? 0) && (negb (y mod 100 =? 0) || (y mod 400 =? 0)).

Definition days_in_month (y m : Z) : Z :=
  if m =? 2 then (if is_leap y then 29 else 28)
  else if (m =? 4) || (m =? 6) || (m =? 9) || (m =? 11) then 30
  else 31.

(** [datetime.date(y, m, d)] raises [ValueError] outside the calendar. *)
Definition check_date (y m d : Z) : result unit :=
  if (1 <=? y) && (y <=? 9999) && (1 <=? m) && (m <=? 12)
     && (1 <=? d) && (d <=? days_in_month y m)
  then Ok tt else Raise ValueError.

(** Comparison of naive datetimes: field by field, most significant first. *)
Definition dt_fields (a : datetime) : list Z :=
  [year a; month a; day a; hour a; minute a; second a; microsecond a].

Fixpoint lex_compare (a b : list Z) : comparison :=
  match a, b with
  | x :: a', y :: b' =>
      match x ?= y with
      | Eq => lex_compare a' b'
      | c => c
      end
  | [], [] => Eq
  | [], _ :: _ => Lt
  | _ :: _, [] => Gt
  end.

Definition dt_compare (a b : datetime) : comparison :=
  lex_compare (dt_fields a) (dt_fields b).

Definition dt_leb (a b : datetime) : bool :=
  match dt_compare a b with Gt => false | _ => true end.

Definition dt_geb (a b : datetime) : bool := dt_leb b a.

Definition dt_eqb (a b : datetime) : bool :=
  match dt_compare a b with Eq => true | _ => false end.

(** ** [datetime.strptime] for the directives the program uses *)

Inductive directive : Type := pct_m | pct_d | pct_y | pct_Y.

Inductive fmt_item : Type :=
| Dir (d : directive)
| Chr (c : ascii).

(** The regular expression of each directive, as in [_strptime.TimeRE]. *)
Definition directive_regex (d : directive) : regex :=
  match d with
  | pct_m =>  (* (?P<m>1[0-2]|0[1-9]|[1-9]) *)
      Group (Alt (Cat (Lit "1") (one (in_range "0" "2")))
            (Alt (Cat (Lit "0") (one (in_range "1" "9")))
                 (one (in_range "1" "9"))))
  | pct_d =>  (* (?P<d>3[0-1]|[1-2]\d|0[1-9]|[1-9]| [1-9]) *)
      Group (Alt (Cat (Lit "3") (one (in_range "0" "1")))
            (Alt (Cat (one (in_range "1" "2")) (one is_digit))
            (Alt (Cat (Lit "0") (one (in_range "1" "9")))
            (Alt (one (in_range "1" "9"))
                 (Cat (Lit " ") (one (in_range "1" "9")))))))
  | pct_y =>  (* (?P<y>\d\d) *)
      Group (Cat (one is_digit) (one is_digit))
  | pct_Y =>  (* (?P<Y>\d\d\d\d) *)
      Group (Cat (one is_digit) (Cat (one is_digit)
            (Cat (one is_digit) (one is_digit))))
  end.

Definition item_regex (i : fmt_item) : regex :=
  match i with
  | Dir d => directive_regex d
  | Chr c => Lit c
  end.

Definition format_regex (fmt : list fmt_item) : regex :=
  cat_all (map item_regex fmt).

Fixpoint directives (fmt : list fmt_item) : list directive :=
  match fmt with
  | [] => []
  | Dir d :: fmt' => d :: directives fmt'
  | Chr _ :: fmt' => directives fmt'
  end.

(** The fields the directives set; [year] starts as [None], month and day
    as 1. *)
Record found_fields : Type := mk_found {
  f_year : option Z; f_month : Z; f_day : Z
}.

Definition set_field (acc : found_fields) (kv : directive * str)
  : result found_fields :=
  let '(d, v) := kv in
  n <- py_int v ;;
  match d with
  | pct_y =>
      Ok (mk_found (Some (if n <=? 68 then n + 2000 else n + 1900))
                   (f_month acc) (f_day acc))
  | pct_Y => Ok (mk_found (Some n) (f_month acc) (f_day acc))
  | pct_m => Ok (mk_found (f_year acc) n (f_day acc))
  | pct_d => Ok (mk_found (f_year acc) (f_month acc) n)
  end.

Fixpoint for_each {S X : Type} (body : S -> X -> result S) (xs : list X)
  (st : S) : result S :=
  match xs with
  | [] => Ok st
  | x :: xs' => st' <- body st x ;; for_each body xs' st'
  end.

Definition strptime (data_string : str) (fmt : list fmt_item)
  : result datetime :=
  match re_match (format_regex fmt) data_string with
  | None => Raise ValueError          (* does not match format *)
  | Some (groups, rest) =>
      match rest with
      | _ :: _ => Raise ValueError    (* unconverted data remains *)
      | [] =>
          f <- for_each set_field (combine (directives fmt) groups)
                 (mk_found None 1 1) ;;
          let y := match f_year f with Some y => y | None => 1900 end in
          _ <- check_date y (f_month f) (f_day f) ;;
          Ok (mk_datetime y (f_month f) (f_day f) 0 0 0 0)
      end
  end.

(** ['%m/%d/%y'] and ['%d/%m/%Y'] *)
Definition fmt_mdy : list fmt_item :=
  [Dir pct_m; Chr "/"; Dir pct_d; Chr "/"; Dir pct_y].
Definition fmt_dmY : list fmt_item :=
  [Dir pct_d; Chr "/"; Dir pct_m; Chr "/"; Dir pct_Y].

(** ** Records and frames *)

Record Message : Type := mk_message {
  date : datetime;
  time : str;
  sender : str;
  message : str
}.

(** A frame holds the rows of the four parsed columns and, once
    [analyze_chat] has written it, the derived column ['hour']. *)
Record DataFrame : Type := mk_frame {
  rows : list Message;
  hour_column : option (list Z)
}.

(** [pd.DataFrame(messages)] *)
Definition new_frame (messages : list Message) : DataFrame :=
  mk_frame messages None.

(** [df.empty] *)
Definition empty (df : DataFrame) : bool :=
  match rows df with [] => true | _ :: _ => false end.

(** [a, b, c, d = match.groups()] raises [ValueError] unless there are
    exactly four values. *)
Definition unpack4 (groups : list str) : result (str * str * str * str) :=
  match groups with
  | [a; b; c; d] => Ok (a, b, c, d)
  | _ => Raise ValueError
  end.

(** ** Series of counts *)

Definition Series (K : Type) : Type := list (K * nat).

Definition total {K : Type} (s : Series K) : nat :=
  fold_right (fun kv acc => (snd kv + acc)%nat) 0%nat s.

Definition keys {K : Type} (s : Series K) : list K := map fst s.

Section Counting.

Context {K : Type} (eqb : K -> K -> bool).

(** One more occurrence of [k]; a new key goes to the end. *)
Fixpoint bump (k : K) (s : Series K) : Series K :=
  match s with
  | [] => [(k, 1%nat)]
  | (k', n) :: s' =>
      if eqb k k' then (k', S n) :: s' else (k', n) :: bump k s'
  end.

(** Occurrences of each distinct value, in order of first appearance. *)
Definition count_keys (l : list K) : Series K :=
  fold_left (fun acc k => bump k acc) l [].

End Counting.

Section Sorting.

Context {A : Type} (le : A -> A -> bool).

Fixpoint insert_by (x : A) (l : list A) : list A :=
  match l with
  | [] => [x]
  | y :: l' => if le x y then x :: l else y :: insert_by x l'
  end.

(** Stable insertion sort. *)
Definition sort_by (l : list A) : list A := fold_right insert_by [] l.

End Sorting.

Definition count_desc {K : Type} (a b : K * nat) : bool :=
  Nat.leb (snd b) (snd a).

Definition key_asc {K : Type} (le : K -> K -> bool) (a b : K * nat) : bool :=
  le (fst a) (fst b).

(** [s.sort_values(ascending=False)]; ties are kept in index order here
    (pandas leaves their order to the sorting routine, which may order
    them differently; no statement below depends on the order of ties). *)
Definition sort_values_desc {K : Type} (s : Series K) : Series K :=
  sort_by count_desc s.

(** [column.value_counts()] *)
Definition value_counts {K : Type} (eqb : K -> K -> bool) (l : list K)
  : Series K :=
  sort_values_desc (count_keys eqb l).

(** [df.groupby(column).size()]: one entry per distinct value, by
    ascending key. *)
Definition groupby_size {K : Type} (eqb le : K -> K -> bool) (l : list K)
  : Series K :=
  sort_by (key_asc le) (count_keys eqb l).

Fixpoint str_eqb (a b : str) : bool :=
  match a, b with
  | [], [] => true
  | x :: a', y :: b' => Ascii.eqb x y && str_eqb a' b'
  | _, _ => false
  end.

(** ** Frame operations *)

(** [l[mask]] *)
Fixpoint select {A : Type} (mask : list bool) (l : list A) : list A :=
  match mask, l with
  | b :: mask', x :: l' =>
      if b then x :: select mask' l' else select mask' l'
  | _, _ => []
  end.

(** [df[mask]]: a new frame with the selected rows of every column. *)
Definition frame_select (mask : list bool) (df : DataFrame) : DataFrame :=
  mk_frame (select mask (rows df)) (option_map (select mask) (hour_column df)).

(** [column.astype(int)] on a column of strings *)
Fixpoint astype_int (l : list str) : result (list Z) :=
  match l with
  | [] => Ok []
  | s :: l' => n <- py_int s ;; ns <- astype_int l' ;; Ok (n :: ns)
  end.

(** [df['hour'] = values] *)
Definition set_hour (df : DataFrame) (values : list Z) : DataFrame :=
  mk_frame (rows df) (Some values).

Definition analysis : Type :=
  option (Series str) * option (Series datetime) * option (Series Z).

(** ** [datetime.date] and the date pickers *)

Record date_t : Type := mk_date { date_year : Z; date_month : Z; date_day : Z }.

(** [dt.date()] *)
Definition date_of (dt : datetime) : date_t :=
  mk_date (year dt) (month dt) (day dt).

(** [datetime.combine(d, datetime.min.time())] *)
Definition combine_min (d : date_t) : datetime :=
  mk_datetime (date_year d) (date_month d) (date_day d) 0 0 0 0.

(** [datetime.combine(d, datetime.max.time())] *)
Definition combine_max (d : date_t) : datetime :=
  mk_datetime (date_year d) (date_month d) (date_day d) 23 59 59 999999.

Definition dt_min (a b : datetime) : datetime := if dt_leb a b then a else b.
Definition dt_max (a b : datetime) : datetime := if dt_leb a b then b else a.

(** [column.min()] and [column.max()] of a column with a first value. *)
Definition column_min (first : datetime) (others : list datetime) : datetime :=
  fold_left dt_min others first.
Definition column_max (first : datetime) (others : list datetime) : datetime :=
  fold_left dt_max others first.

(** The limits [st.sidebar.date_input(label, value)] gives the picker when
    none are passed: ten years before and after [value].  The call raises
    when one of them leaves the years 1..9999.  (Which exception it is
    depends on the version of the library; no statement below depends on
    it.) *)
Definition date_input_limits (value : date_t) : result (Z * Z) :=
  let lo := date_year value - 10 in
  let hi := date_year value + 10 in
  if (1 <=? lo) && (hi <=? 9999) then Ok (lo, hi) else Raise ValueError.

(** What [st.sidebar.date_input(label, value)] returns once the limits
    exist: the date the user has picked, or [value] as long as the picker
    is untouched. *)
Definition date_input (picked : option date_t) (value : date_t) : date_t :=
  match picked with
  | Some d => d
  | None => value
  end.

(** What [main] puts on the page below the title and the instructions. *)
Inductive page : Type :=
| Upload_prompt
| Error_no_valid_messages
| Error_no_data_for_range
| Error_occurred (e : exn)
| Insights (total_messages total_participants : nat)
    (date_range : date_t * date_t)
    (participant_stats : Series str)
    (daily_activity : option (Series datetime))
    (hourly_activity : option (Series Z)).

Module app.

(** [(\d{1,2}/\d{1,2}/\d{2,4}), (\d{2}:\d{2}) - ([^:]+): (.+)] *)
Definition pattern : regex :=
  cat_all
    [ Group (cat_all [Rep is_digit 1 (Some 2%nat); Lit "/";
                      Rep is_digit 1 (Some 2%nat); Lit "/";
                      Rep is_digit 2 (Some 4%nat)]);
      text ", ";
      Group (cat_all [Rep is_digit 2 (Some 2%nat); Lit ":";
                      Rep is_digit 2 (Some 2%nat)]);
      text " - ";
      Group (Rep (is_not ":") 1 None);
      text ": ";
      Group (Rep dot 1 None) ].

(** The two nested [try] blocks around [strptime]; [None] stands for the
    [continue] of the innermost handler. *)
Definition resolve_date (date : str) : result (option datetime) :=
  try_except_ValueError
    (d <- strptime date fmt_mdy ;; Ok (Some d))
    (try_except_ValueError
       (d <- strptime date fmt_dmY ;; Ok (Some d))
       (Ok None)).

(** One turn of the [for] loop; the state is the list [messages].  The
    outer handler only warns and goes on to the next line. *)
Definition loop_body (messages : list Message) (line : str)
  : result (list Message) :=
  match re_match pattern line with
  | Some (groups, _) =>
      try_except_ValueError
        ('(date, time, sender, message) <- unpack4 groups ;;
         parsed <- resolve_date date ;;
         match parsed with
         | None => Ok messages
         | Some parsed_date =>
             Ok (messages ++
                 [mk_message parsed_date time (strip sender) message])
         end)
        (Ok messages)
  | None => Ok messages
  end.

Definition parse_chat (file_content : str) : result (option DataFrame) :=
  messages <- for_each loop_body (split_nl file_content) [] ;;
  match messages with
  | [] => Ok None
  | _ :: _ => Ok (Some (new_frame messages))
  end.

(** [df[df['date'] >= start_date]] and [df[df['date'] <= end_date]] *)
Definition from_start (start_date : datetime) (df : DataFrame) : DataFrame :=
  frame_select (map (fun r => dt_geb (date r) start_date) (rows df)) df.

Definition until_end (end_date : datetime) (df : DataFrame) : DataFrame :=
  frame_select (map (fun r => dt_leb (date r) end_date) (rows df)) df.

(** The rows the three summaries are computed from. *)
Definition filtered (df : DataFrame) (start_date end_date : option datetime)
  : DataFrame :=
  let df1 := match start_date with
             | Some s => from_start s df
             | None => df
             end in
  match end_date with
  | Some e => until_end e df1
  | None => df1
  end.

(** The local name [df] still denotes the caller's frame exactly when no
    bound was given: a selection builds a new frame. *)
Definition shared (start_date end_date : option datetime) : bool :=
  match start_date, end_date with
  | None, None => true
  | _, _ => false
  end.

(** The result is the returned triple together with the caller's frame as
    the call leaves it: [df['hour'] = ...] writes into whatever frame the
    local name [df] denotes at that point. *)
Definition analyze_chat (df : option DataFrame)
  (start_date end_date : option datetime)
  : result (analysis * option DataFrame) :=
  match df with
  | None => Ok ((None, None, None), None)
  | Some df0 =>
      if empty df0 then Ok ((None, None, None), Some df0)
      else
        let df' := filtered df0 start_date end_date in
        let participant_stats :=
          value_counts str_eqb (map sender (rows df')) in
        let daily_activity :=
          sort_values_desc
            (groupby_size dt_eqb dt_leb (map date (rows df'))) in
        hours <- astype_int (map (fun r => firstn 2 (time r)) (rows df')) ;;
        let df'' := set_hour df' hours in
        let hourly_activity := groupby_size Z.eqb Z.leb hours in
        Ok ((Some participant_stats, Some daily_activity,
             Some hourly_activity),
            Some (if shared start_date end_date then df'' else df0))
  end.

(** The body of the [try] block of [main]: the text is the decoded upload,
    [start_pick] and [end_pick] are the states of the two date pickers.
    The result says which message or which figures are put on the page.
    The decoding of the upload and the calls that only draw (headers,
    metrics, charts, the raw-data table) are left out: the statements about
    [main] say what the page shows when it is shown, and which of the two
    error messages of the code can appear. *)
Definition main_body (content : str) (start_pick end_pick : option date_t)
  : result page :=
  df <- parse_chat content ;;
  match df with
  | None => Ok Error_no_valid_messages
  | Some df =>
      match rows df with
      | [] => Ok Error_no_valid_messages
      | m :: ms =>
          let min_date := column_min (date m) (map date ms) in
          let max_date := column_max (date m) (map date ms) in
          _ <- date_input_limits (date_of min_date) ;;
          let start_date := date_input start_pick (date_of min_date) in
          _ <- date_input_limits (date_of max_date) ;;
          let end_date := date_input end_pick (date_of max_date) in
          '(stats, _) <- analyze_chat (Some df)
                           (Some (combine_min start_date))
                           (Some (combine_max end_date)) ;;
          let '(participant_stats, daily_activity, hourly_activity) := stats in
          match participant_stats with
          | None => Ok Error_no_data_for_range
          | Some p =>
              Ok (Insights (List.length (rows df)) (List.length p)
                    (date_of min_date, date_of max_date)
                    p daily_activity hourly_activity)
          end
      end
  end.

(** [main]: nothing below the instructions without an upload; any exception
    of the body ends in the last error message. *)
Definition main (uploaded_file : option str)
  (start_pick end_pick : option date_t) : page :=
  match uploaded_file with
  | None => Upload_prompt
  | Some content =>
      match main_body content start_pick end_pick with
      | Ok p => p
      | Raise e => Error_occurred e
      end
  end.

End app.

Module whatsapp_analyzer.

(** [(\d{2}/\d{2}/\d{4}), (\d{2}:\d{2}) - ([^:]+): (.+)] *)
Definition pattern : regex :=
  cat_all
    [ Group (cat_all [Rep is_digit 2 (Some 2%nat); Lit "/";
                      Rep is_digit 2 (Some 2%nat); Lit "/";
                      Rep is_digit 4 (Some 4%nat)]);
      text ", ";
      Group (cat_all [Rep is_digit 2 (Some 2%nat); Lit ":";
                      Rep is_digit 2 (Some 2%nat)]);
      text " - ";
      Group (Rep (is_not ":") 1 None);
      text ": ";
      Group (Rep dot 1 None) ].

Definition loop_body (messages : list Message) (line : str)
  : result (list Message) :=
  match re_match pattern line with
  | Some (groups, _) =>
      '(date, time, sender, message) <- unpack4 groups ;;
      parsed_date <- strptime date fmt_dmY ;;
      Ok (messages ++ [mk_message parsed_date time (strip sender) message])
  | None => Ok messages
  end.

Definition parse_chat (file_content : str) : result DataFrame :=
  messages <- for_each loop_body (split_nl file_content) [] ;;
  Ok (new_frame messages).

(** [analyze_chat] of the earlier file, for a frame that has its columns
    (a frame with a row, or a selection of one): the same steps without
    the test for a missing or empty frame.  The result is the three
    summaries and the caller's frame as the call leaves it. *)
Definition analyze_chat (df : DataFrame)
  (start_date end_date : option datetime)
  : result (Series str * Series datetime * Series Z * DataFrame) :=
  let df1 := match start_date with
             | Some s =>
                 frame_select
                   (map (fun r => dt_geb (date r) s) (rows df)) df
             | None => df
             end in
  let df2 := match end_date with
             | Some e =>
                 frame_select
                   (map (fun r => dt_leb (date r) e) (rows df1)) df1
             | None => df1
             end in
  let participant_stats := value_counts str_eqb (map sender (rows df2)) in
  let daily_activity :=
    sort_values_desc (groupby_size dt_eqb dt_leb (map date (rows df2))) in
  hours <- astype_int (map (fun r => firstn 2 (time r)) (rows df2)) ;;
  let hourly_activity := groupby_size Z.eqb Z.leb hours in
  Ok (participant_stats, daily_activity, hourly_activity,
      match start_date, end_date with
      | None, None => set_hour df2 hours
      | _, _ => df
      end).

(** [main] of the earlier file.  There is no [try] block, so an exception
    ends the run.  [pd.DataFrame([])] has no column: on a frame without
    rows [df['date']] raises [KeyError].  The calls that only draw are left
    out, as for the later [main]. *)
Definition main (uploaded_file : option str)
  (start_pick end_pick : option date_t) : result page :=
  match uploaded_file with
  | None => Ok Upload_prompt
  | Some content =>
      df <- parse_chat content ;;
      match rows df with
      | [] => Raise KeyError
      | m :: ms =>
          let min_date := column_min (date m) (map date ms) in
          let max_date := column_max (date m) (map date ms) in
          _ <- date_input_limits (date_of min_date) ;;
          let start_date := date_input start_pick (date_of min_date) in
          _ <- date_input_limits (date_of max_date) ;;
          let end_date := date_input end_pick (date_of max_date) in
          '(participant_stats, daily_activity, hourly_activity, _) <-
            analyze_chat df (Some (combine_min start_date))
              (Some (combine_max end_date)) ;;
          Ok (Insights (List.length (rows df))
                (List.length participant_stats)
                (date_of min_date, date_of max_date)
                participant_stats (Some daily_activity)
                (Some hourly_activity))
      end
  end.

End whatsapp_analyzer.

Definition nl : string := String "010"%char EmptyString.

Definition example_text : str :=
  lit "12/1/23, 09:15 - Alice: hi" ++ lit nl ++
  lit "12/1/23, 09:40 - Bob: hello" ++ lit nl ++
  lit "not a message line" ++ lit nl ++
  lit "12/2/23, 23:05 - Alice: bye".

(** The frame [parse_chat] returns for it: three records. *)
Definition example_frame : DataFrame :=
  new_frame
    [mk_message (mk_datetime 2023 12 1 0 0 0 0) (lit "09:15") (lit "Alice")
       (lit "hi");
     mk_message (mk_datetime 2023 12 1 0 0 0 0) (lit "09:40") (lit "Bob")
       (lit "hello");
     mk_message (mk_datetime 2023 12 2 0 0 0 0) (lit "23:05") (lit "Alice")
       (lit "bye")].

(** A single message of 1 December 2023, and the bounds that select
    2 December 2023 as [main] builds them from the two date pickers. *)
Definition one_message_text : str := lit "12/1/23, 09:15 - Alice: hi".

Definition one_message_frame : DataFrame :=
  new_frame [mk_message (mk_datetime 2023 12 1 0 0 0 0) (lit "09:15")
               (lit "Alice") (lit "hi")].

Definition dec_2_start : datetime := mk_datetime 2023 12 2 0 0 0 0.
Definition dec_2_end : datetime := mk_datetime 2023 12 2 23 59 59 999999.

(** A line with the time token [ab:cd]. *)
Definition clock_line (a b c d : ascii) : str :=
  lit "1/2/23, " ++ [a; b; ":"%char; c; d] ++ lit " - Bob: hi".

Definition clock_record (a b c d : ascii) : Message :=
  mk_message (mk_datetime 2023 1 2 0 0 0 0) [a; b; ":"%char; c; d]
    (lit "Bob") (lit "hi").

(** ** What a pattern matches, as a relation

    [matches r m caps caps']: the string [m] is in the language of [r], and
    matching it takes the list of closed groups from [caps] to [caps']. *)

Definition within (hi : option nat) (n : nat) : Prop :=
  match hi with
  | Some h => (n <= h)%nat
  | None => True
  end.

Inductive matches : regex -> str -> list str -> list str -> Prop :=
| m_lit c caps :
    matches (Lit c) [c] caps caps
| m_rep cls lo hi m caps :
    Forall (fun c => cls c = true) m ->
    (lo <= List.length m)%nat -> within hi (List.length m) ->
    matches (Rep cls lo hi) m caps caps
| m_cat r1 r2 m1 m2 c0 c1 c2 :
    matches r1 m1 c0 c1 -> matches r2 m2 c1 c2 ->
    matches (Cat r1 r2) (m1 ++ m2) c0 c2
| m_alt_l r1 r2 m c0 c1 :
    matches r1 m c0 c1 -> matches (Alt r1 r2) m c0 c1
| m_alt_r r1 r2 m c0 c1 :
    matches r2 m c0 c1 -> matches (Alt r1 r2) m c0 c1
| m_group r m c0 c1 :
    matches r m c0 c1 -> matches (Group r) m c0 (c1 ++ [m]).

(** ** Vocabulary of the statements *)

Definition digits (s : str) : Prop := Forall (fun c => is_digit c = true) s.

Definition date_token (d : str) : Prop :=
  exists a b y, d = a ++ "/"%char :: b ++ "/"%char :: y /\
    digits a /\ digits b /\ digits y /\
    (1 <= List.length a <= 2)%nat /\ (1 <= List.length b <= 2)%nat /\
    (2 <= List.length y <= 4)%nat.

Definition time_token (t : str) : Prop :=
  exists a b c d, t = [a; b; ":"%char; c; d] /\
    is_digit a = true /\ is_digit b = true /\
    is_digit c = true /\ is_digit d = true.

Definition newline : ascii := "010"%char.

Definition no_surrounding_space (s : str) : Prop :=
  (forall c t, s = c :: t -> is_space c = false) /\
  (forall c t, s = t ++ [c] -> is_space c = false).

(** The records one line adds to [messages]. *)
Definition line_records (line : str) : list Message :=
  match app.loop_body [] line with
  | Ok l => l
  | Raise _ => []
  end.

(** A line that fails the grammar, or whose date token fails both
    formats. *)
Definition no_record (line : str) : Prop :=
  re_match app.pattern line = None \/
  exists d t sn msg rest,
    re_match app.pattern line = Some ([d; t; sn; msg], rest) /\
    strptime d fmt_mdy = Raise ValueError /\
    strptime d fmt_dmY = Raise ValueError.

(** The filter in the words of the specification: [date >= start] if a
    start is given and [date <= end] if an end is given. *)
Definition in_bounds (start_date end_date : option datetime) (r : Message)
  : bool :=
  match start_date with
  | Some s => dt_geb (date r) s
  | None => true
  end &&
  match end_date with
  | Some e => dt_leb (date r) e
  | None => true
  end.

(** Every time token of the frame is two digits, a colon, two digits. *)
Definition well_timed (df : DataFrame) : Prop :=
  Forall (fun r => time_token (time r)) (rows df).

(** The integer the two leading digits of a time token denote. *)
Definition leading_hour (t : str) : Z :=
  match t with
  | a :: b :: _ => 10 * digit_value a + digit_value b
  | _ => 0
  end.

(** ** Further vocabulary *)

(** The line with the four fields [d], [t], [sn] and [msg]. *)
Definition line_of_fields (d t sn msg : str) : str :=
  d ++ lit ", " ++ t ++ lit " - " ++ sn ++ lit ": " ++ msg.

Definition date_char (c : ascii) : bool := is_digit c || Ascii.eqb c "/".

Definition time_char (c : ascii) : bool := is_digit c || Ascii.eqb c ":".

(** A date of the calendar, at midnight. *)
Definition valid_date (d : datetime) : Prop :=
  1 <= year d <= 9999 /\ 1 <= month d <= 12 /\
  1 <= day d <= days_in_month (year d) (month d) /\
  hour d = 0 /\ minute d = 0 /\ second d = 0 /\ microsecond d = 0.

(** The year a two-digit year stands for. *)
Definition year_of_two_digits (n : Z) : Z :=
  if n <=? 68 then n + 2000 else n + 1900.

Definition day_char (c : ascii) : bool := is_digit c || Ascii.eqb c " ".

(** A date token of the strict shape [dd/dd/dddd]. *)
Definition strict_date_token (d : str) : Prop :=
  exists a b y, d = a ++ "/"%char :: b ++ "/"%char :: y /\
    digits a /\ digits b /\ digits y /\
    List.length a = 2%nat /\ List.length b = 2%nat /\ List.length y = 4%nat.

(** The line is accepted by the pattern of [whatsapp_analyzer.py]. *)
Definition strict_line (line : str) : bool :=
  match re_match whatsapp_analyzer.pattern line with
  | Some _ => true
  | None => false
  end.

(** How often [k] occurs in [l]. *)
Definition occurrences {K : Type} (eqb : K -> K -> bool) (k : K) (l : list K)
  : nat :=
  List.length (filter (eqb k) l).

(** The count a series gives for [k], 0 when [k] is not a key. *)
Fixpoint count_of {K : Type} (eqb : K -> K -> bool) (k : K) (s : Series K)
  : nat :=
  match s with
  | [] => 0%nat
  | (k', n) :: s' => if eqb k k' then n else count_of eqb k s'
  end.

(** An exact table of the occurrences in [l]: every value of [l] is a key
    once, with the number of its occurrences, and there is no other key. *)
Definition counts_exactly {K : Type} (eqb : K -> K -> bool) (l : list K)
  (s : Series K) : Prop :=
  NoDup (keys s) /\
  forall k n, In (k, n) s <-> In k l /\ n = occurrences eqb k l.

Definition counts_descending {K : Type} (s : Series K) : Prop :=
  Sorted (fun a b : K * nat => (snd b <= snd a)%nat) s.

Definition keys_ascending {K : Type} (le : K -> K -> bool) (s : Series K)
  : Prop :=
  Sorted (fun a b : K * nat => le (fst a) (fst b) = true) s.

(** The records of a parse result. *)
Definition records_of (r : result (option DataFrame)) : list Message :=
  match r with
  | Ok (Some df) => rows df
  | _ => []
  end.

(** Order of calendar dates. *)
Definition date_leb (a b : date_t) : bool :=
  match lex_compare [date_year a; date_month a; date_day a]
                    [date_year b; date_month b; date_day b] with
  | Gt => false
  | _ => true
  end.

(** The record is dated from [start_date] to [end_date], both included. *)
Definition dated_within (start_date end_date : date_t) (r : Message) : bool :=
  date_leb start_date (date_of (date r)) &&
  date_leb (date_of (date r)) end_date.

(** * Properties *)

(** ** The matcher is sound for [matches] *)

Lemma rep_sound {A : Type} (cls : ascii -> bool) (k : str -> option A) :
  forall s lo hi x,
    rep cls lo hi s k = Some x ->
    exists m s', s = m ++ s' /\ Forall (fun c => cls c = true) m /\
                 (lo <= List.length m)%nat /\ within hi (List.length m) /\
                 k s' = Some x.
Proof.
  assert (Hstop : forall s lo hi x,
             (if Nat.eqb lo 0 then k s else None) = Some x ->
             exists m s', s = m ++ s' /\ Forall (fun c => cls c = true) m /\
                          (lo <= List.length m)%nat /\
                          within hi (List.length m) /\ k s' = Some x).
  { intros s lo hi x H. destruct (Nat.eqb_spec lo 0) as [->|]; [|discriminate].
    exists [], s. repeat split; auto.
    destruct hi; simpl; lia. }
  induction s as [|c s IH]; intros lo hi x H; simpl in H.
  - now apply Hstop.
  - destruct (cls c && hi_open hi) eqn:E; [|now apply Hstop].
    destruct (rep cls (Nat.pred lo) (hi_pred hi) s k) eqn:R;
      [|now apply Hstop].
    injection H as ->.
    apply andb_prop in E as [Ec Eh].
    destruct (IH _ _ _ R) as (m & s' & -> & Hm & Hlo & Hhi & Hk).
    exists (c :: m), s'. repeat split; auto.
    + simpl. lia.
    + destruct hi as [[|h]|]; simpl in *; try discriminate; lia.
Qed.

Lemma run_sound {A : Type} :
  forall r s caps (k : str -> list str -> option A) x,
    run r s caps k = Some x ->
    exists m s' caps', s = m ++ s' /\ matches r m caps caps' /\
                       k s' caps' = Some x.
Proof.
  induction r as [c|cls lo hi|r1 IH1 r2 IH2|r1 IH1 r2 IH2|r IH];
    intros s caps k x H; simpl in H.
  - destruct s as [|c' s]; [discriminate|].
    destruct (Ascii.eqb_spec c c') as [<-|]; [|discriminate].
    exists [c], s, caps. repeat split; auto. constructor.
  - apply rep_sound in H as (m & s' & -> & Hm & Hlo & Hhi & Hk).
    exists m, s', caps. repeat split; auto. now constructor.
  - apply IH1 in H as (m1 & s1 & c1 & -> & M1 & H).
    apply IH2 in H as (m2 & s2 & c2 & -> & M2 & H).
    exists (m1 ++ m2), s2, c2. rewrite <- app_assoc.
    repeat split; auto. econstructor; eauto.
  - destruct (run r1 s caps k) eqn:R1.
    + injection H as ->. apply IH1 in R1 as (m & s' & c' & -> & M & Hk).
      exists m, s', c'. repeat split; auto. now apply m_alt_l.
    + apply IH2 in H as (m & s' & c' & -> & M & Hk).
      exists m, s', c'. repeat split; auto. now apply m_alt_r.
  - apply IH in H as (m & s' & c' & -> & M & Hk).
    replace (List.length (m ++ s') - List.length s')%nat
      with (List.length m + 0)%nat in Hk by (rewrite length_app; lia).
    rewrite firstn_app_2 in Hk. simpl in Hk. rewrite app_nil_r in Hk.
    exists m, s', (c' ++ [m]). repeat split; auto. now constructor.
Qed.

Lemma re_match_sound r s groups rest :
  re_match r s = Some (groups, rest) ->
  exists m, s = m ++ rest /\ matches r m [] groups.
Proof.
  intros H. apply run_sound in H as (m & s' & c' & -> & M & Hk).
  injection Hk as -> ->. now exists m.
Qed.

(** A greedy unbounded repetition in front of a continuation that cannot
    fail takes every character of the class it can. *)
Lemma rep_total {A : Type} (cls : ascii -> bool) (k : str -> option A) :
  (forall s, k s <> None) -> forall s, rep cls 0 None s k <> None.
Proof.
  intros Hk. induction s as [|c s IH]; simpl.
  - apply Hk.
  - destruct (cls c && true); [|apply Hk].
    destruct (rep cls 0 None s k); [discriminate|apply Hk].
Qed.

Lemma rep_greedy {A : Type} (cls : ascii -> bool) (k : str -> option A) :
  (forall s, k s <> None) ->
  forall s lo x,
    rep cls lo None s k = Some x ->
    exists m s', s = m ++ s' /\ Forall (fun c => cls c = true) m /\
                 (lo <= List.length m)%nat /\ k s' = Some x /\
                 (forall c t, s' = c :: t -> cls c = false).
Proof.
  intros Hk. induction s as [|c s IH]; intros lo x H; simpl in H.
  - destruct (Nat.eqb_spec lo 0) as [->|]; [|discriminate].
    exists [], []. repeat split; auto. discriminate.
  - destruct (cls c) eqn:Ec; simpl in H.
    + destruct (rep cls (Nat.pred lo) None s k) eqn:R.
      * injection H as ->.
        destruct (IH _ _ R) as (m & s' & -> & Hm & Hlo & Hx & Hmax).
        exists (c :: m), s'. repeat split; auto. simpl. lia.
      * destruct (Nat.eqb_spec lo 0) as [->|]; [|discriminate].
        exfalso. now apply (rep_total cls k Hk s).
    + destruct (Nat.eqb_spec lo 0) as [->|]; [|discriminate].
      exists [], (c :: s). repeat split; auto.
      intros c' t [= <- <-]. exact Ec.
Qed.

Lemma run_cat {A : Type} r1 r2 s caps (k : str -> list str -> option A) x :
  run (Cat r1 r2) s caps k = Some x ->
  exists m s' caps', s = m ++ s' /\ matches r1 m caps caps' /\
                     run r2 s' caps' k = Some x.
Proof. intros H. simpl in H. now apply run_sound in H. Qed.

Ltac inv_matches :=
  repeat match goal with
    | H : matches (Cat _ _) _ _ _ |- _ => inversion H; subst; clear H
    | H : matches (Lit _) _ _ _ |- _ => inversion H; subst; clear H
    | H : matches (Group _) _ _ _ |- _ => inversion H; subst; clear H
    | H : matches (Rep _ _ _) _ _ _ |- _ => inversion H; subst; clear H
    end.

Lemma digits_length_2 s :
  digits s -> (2 <= List.length s)%nat -> (List.length s <= 2)%nat ->
  exists a b, s = [a; b] /\ is_digit a = true /\ is_digit b = true.
Proof.
  intros H L1 L2. destruct s as [|a [|b [|c s]]]; simpl in *; try lia.
  exists a, b. inversion H as [|? ? Ha H']; subst.
  inversion H' as [|? ? Hb _]; subst. auto.
Qed.

(** ** Shape of a matched line *)

Lemma matches_group r m c c' :
  matches (Group r) m c c' -> exists c1, matches r m c c1 /\ c' = c1 ++ [m].
Proof. intros H. inversion H; subst. eauto. Qed.

Lemma matches_date m c c' :
  matches (cat_all [Rep is_digit 1 (Some 2%nat); Lit "/";
                    Rep is_digit 1 (Some 2%nat); Lit "/";
                    Rep is_digit 2 (Some 4%nat)]) m c c' ->
  date_token m /\ c' = c.
Proof.
  cbn. intros H. inv_matches. split; [|reflexivity].
  match goal with
  | |- date_token (?a ++ _ ++ ?b ++ _ ++ ?y) => exists a, b, y
  end.
  unfold within, digits in *. simpl. repeat split; auto; lia.
Qed.

Lemma matches_time m c c' :
  matches (cat_all [Rep is_digit 2 (Some 2%nat); Lit ":";
                    Rep is_digit 2 (Some 2%nat)]) m c c' ->
  time_token m /\ c' = c.
Proof.
  cbn. intros H. inv_matches. split; [|reflexivity].
  repeat match goal with
         | H : Forall _ ?s, H1 : (2 <= List.length ?s)%nat,
           H2 : within (Some 2%nat) (List.length ?s) |- _ =>
             destruct (digits_length_2 s H H1 H2) as (? & ? & -> & ? & ?);
             clear H H1 H2
         end.
  simpl. unfold time_token. eauto 10.
Qed.

Lemma matches_text s m c c' :
  matches (text s) m c c' -> lit s <> [] -> m = lit s /\ c' = c.
Proof.
  unfold text. generalize (lit s). clear s. intros l. revert m c c'.
  induction l as [|x l IH]; intros m c c' H Hne; [contradiction|].
  destruct l as [|y l].
  - simpl in H. inversion H; subst. auto.
  - change (cat_all (map Lit (x :: y :: l)))
      with (Cat (Lit x) (cat_all (map Lit (y :: l)))) in H.
    inversion H as [| |? ? m1 m2 ? c1 ? M1 M2| | |]; subst.
    inversion M1; subst.
    apply IH in M2 as [-> ->]; [auto|discriminate].
Qed.

Lemma pattern_shape line groups rest :
  re_match app.pattern line = Some (groups, rest) ->
  exists d t sn msg,
    groups = [d; t; sn; msg] /\
    line = d ++ lit ", " ++ t ++ lit " - " ++ sn ++ lit ": " ++ msg ++ rest /\
    date_token d /\ time_token t /\
    sn <> [] /\ ~ In ":"%char sn /\
    msg <> [] /\ ~ In newline msg /\
    (forall c r, rest = c :: r -> c = newline).
Proof.
  unfold re_match. intros H.
  change app.pattern with
    (Cat (Group (cat_all [Rep is_digit 1 (Some 2%nat); Lit "/";
                          Rep is_digit 1 (Some 2%nat); Lit "/";
                          Rep is_digit 2 (Some 4%nat)]))
      (Cat (text ", ")
        (Cat (Group (cat_all [Rep is_digit 2 (Some 2%nat); Lit ":";
                              Rep is_digit 2 (Some 2%nat)]))
          (Cat (text " - ")
            (Cat (Group (Rep (is_not ":") 1 None))
              (Cat (text ": ") (Group (Rep dot 1 None)))))))) in H.
  apply run_cat in H as (d & s1 & c1 & -> & M1 & H).
  apply run_cat in H as (m2 & s2 & c2 & -> & M2 & H).
  apply run_cat in H as (t & s3 & c3 & -> & M3 & H).
  apply run_cat in H as (m4 & s4 & c4 & -> & M4 & H).
  apply run_cat in H as (sn & s5 & c5 & -> & M5 & H).
  apply run_cat in H as (m6 & s6 & c6 & -> & M6 & H).
  simpl in H.
  apply rep_greedy in H as (msg & s7 & -> & D7 & L7 & Hk & Hmax);
    [|discriminate].
  replace (List.length (msg ++ s7) - List.length s7)%nat
    with (List.length msg + 0)%nat in Hk by (rewrite length_app; lia).
  rewrite firstn_app_2 in Hk. simpl in Hk. rewrite app_nil_r in Hk.
  injection Hk as <- <-.
  apply matches_group in M1 as (c1' & M1 & ->).
  apply matches_date in M1 as [Hd ->].
  apply matches_text in M2 as [-> ->]; [|discriminate].
  apply matches_group in M3 as (c3' & M3 & ->).
  apply matches_time in M3 as [Ht ->].
  apply matches_text in M4 as [-> ->]; [|discriminate].
  apply matches_group in M5 as (c5' & M5 & ->).
  inversion M5 as [|? ? ? ? ? F5 L5 _| | | |]; subst.
  apply matches_text in M6 as [-> ->]; [|discriminate].
  exists d, t, sn, msg.
  split; [reflexivity|].
  split; [now rewrite <- ?app_assoc|].
  split; [exact Hd|]. split; [exact Ht|].
  split; [intros ->; simpl in L5; lia|].
  split.
  { intros Hin. rewrite Forall_forall in F5. specialize (F5 _ Hin).
    discriminate F5. }
  split; [intros ->; simpl in L7; lia|].
  split.
  { intros Hin. rewrite Forall_forall in D7. specialize (D7 _ Hin).
    discriminate D7. }
  intros c r ->. specialize (Hmax _ _ eq_refl). unfold dot in Hmax.
  destruct (Ascii.eqb_spec c "010"%char); [assumption|discriminate].
Qed.

(** ** [strip] and [split] *)

Lemma drop_while_head p s c t : drop_while p s = c :: t -> p c = false.
Proof.
  induction s as [|x s IH]; simpl; [discriminate|].
  destruct (p x) eqn:E; [exact IH|]. now intros [= <- _].
Qed.

Lemma drop_while_snoc p s c :
  p c = false -> drop_while p (s ++ [c]) = drop_while p s ++ [c].
Proof.
  intros Hc. induction s as [|x s IH]; simpl.
  - now rewrite Hc.
  - now destruct (p x).
Qed.

Lemma strip_no_surrounding_space s : no_surrounding_space (strip s).
Proof.
  unfold strip, rstrip, lstrip. split; intros c t H.
  - destruct (drop_while is_space s) as [|x u] eqn:U; [discriminate|].
    pose proof (drop_while_head _ _ _ _ U) as Hx.
    simpl in H. rewrite drop_while_snoc, rev_app_distr in H by exact Hx.
    simpl in H. now injection H as <- _.
  - apply (f_equal (@rev ascii)) in H.
    rewrite rev_involutive, rev_app_distr in H. simpl in H.
    now apply drop_while_head in H.
Qed.

Lemma split_nl_not_nil s : split_nl s <> [].
Proof.
  destruct s as [|c s]; simpl; [discriminate|].
  destruct (Ascii.eqb c "010"); [discriminate|].
  destruct (split_nl s); discriminate.
Qed.

Lemma split_nl_no_newline s line :
  In line (split_nl s) -> ~ In newline line.
Proof.
  revert line. induction s as [|c s IH]; simpl; intros line H.
  - destruct H as [<-|[]]. intros [].
  - destruct (Ascii.eqb_spec c "010") as [->|Hc].
    + destruct H as [<-|H]; [intros []|now apply IH].
    + destruct (split_nl s) as [|h t] eqn:E.
      * destruct H as [<-|[]]. intros [H|[]]. now apply Hc.
      * destruct H as [<-|H]; [|apply IH; now right].
        intros [H|H]; [now apply Hc|]. apply (IH h); [now left|exact H].
Qed.

Lemma split_nl_app a b :
  split_nl (a ++ newline :: b) = split_nl a ++ split_nl b.
Proof.
  induction a as [|c a IH]; simpl; [reflexivity|].
  destruct (Ascii.eqb c "010"); [now rewrite IH|].
  rewrite IH. pose proof (split_nl_not_nil a).
  destruct (split_nl a); [contradiction|reflexivity].
Qed.

Lemma split_nl_line l : ~ In newline l -> split_nl l = [l].
Proof.
  induction l as [|c l IH]; simpl; intros H; [reflexivity|].
  destruct (Ascii.eqb_spec c "010") as [->|Hc].
  - exfalso. apply H. now left.
  - rewrite IH; [reflexivity|]. intros Hin. apply H. now right.
Qed.

(** ** Only [ValueError] comes out of [strptime] *)

Lemma py_int_raises s e : py_int s = Raise e -> e = ValueError.
Proof.
  unfold py_int. destruct (int_strip s) as [|c r].
  - simpl. now intros [= <-].
  - destruct (Ascii.eqb c "+"), (Ascii.eqb c "-");
      match goal with
      | |- context [int_unsigned ?b] => destruct (int_unsigned b)
      end; try discriminate; now intros [= <-].
Qed.

Lemma set_fields_raises l acc e :
  for_each set_field l acc = Raise e -> e = ValueError.
Proof.
  revert acc. induction l as [|[d v] l IH]; intros acc; simpl; [discriminate|].
  destruct (py_int v) as [n|e'] eqn:P; simpl.
  - destruct d; simpl; apply IH.
  - intros [= <-]. now apply py_int_raises in P.
Qed.

Lemma strptime_raises data fmt e :
  strptime data fmt = Raise e -> e = ValueError.
Proof.
  unfold strptime.
  destruct (re_match (format_regex fmt) data) as [[groups [|c rest]]|];
    try (now intros [= <-]).
  destruct (for_each set_field _ _) as [f|e'] eqn:F; simpl.
  - unfold check_date.
    match goal with |- context [if ?b then _ else _] => destruct b end;
      simpl; [discriminate|now intros [= <-]].
  - intros [= <-]. now apply set_fields_raises in F.
Qed.

(** ** The loop of [parse_chat] *)

Lemma resolve_date_cases date :
  (exists d, strptime date fmt_mdy = Ok d /\
             app.resolve_date date = Ok (Some d)) \/
  (strptime date fmt_mdy = Raise ValueError /\
   exists d, strptime date fmt_dmY = Ok d /\
             app.resolve_date date = Ok (Some d)) \/
  (strptime date fmt_mdy = Raise ValueError /\
   strptime date fmt_dmY = Raise ValueError /\
   app.resolve_date date = Ok None).
Proof.
  unfold app.resolve_date.
  destruct (strptime date fmt_mdy) as [d|e] eqn:E1; simpl.
  - left. now exists d.
  - right. apply strptime_raises in E1 as ->.
    destruct (strptime date fmt_dmY) as [d|e] eqn:E2; simpl.
    + left. split; [reflexivity|]. now exists d.
    + right. apply strptime_raises in E2 as ->. auto.
Qed.

Lemma loop_body_records messages line :
  app.loop_body messages line = Ok (messages ++ line_records line).
Proof.
  unfold line_records, app.loop_body.
  destruct (re_match app.pattern line) as [[groups rest]|];
    [|now rewrite app_nil_r].
  destruct groups as [|d [|t [|sn [|msg [|x groups]]]]]; simpl;
    try (now rewrite app_nil_r).
  destruct (resolve_date_cases d) as [(dt & _ & ->)|[(_ & dt & _ & ->)|(_ & _ & ->)]];
    simpl; try reflexivity. now rewrite app_nil_r.
Qed.

Lemma for_each_records lines : forall messages,
  for_each app.loop_body lines messages =
  Ok (messages ++ flat_map line_records lines).
Proof.
  induction lines as [|l lines IH]; intros messages; simpl.
  - now rewrite app_nil_r.
  - rewrite loop_body_records. simpl. rewrite IH. now rewrite app_assoc.
Qed.

Lemma parse_chat_records file_content :
  app.parse_chat file_content =
  Ok (match flat_map line_records (split_nl file_content) with
      | [] => None
      | m :: ms => Some (new_frame (m :: ms))
      end).
Proof.
  unfold app.parse_chat. rewrite for_each_records. simpl.
  now destruct (flat_map line_records (split_nl file_content)).
Qed.

Lemma no_record_records line : no_record line -> line_records line = [].
Proof.
  unfold line_records, app.loop_body.
  intros [->|(d & t & sn & msg & rest & -> & E1 & E2)]; [reflexivity|].
  simpl. unfold app.resolve_date. rewrite E1, E2. reflexivity.
Qed.

Lemma line_cases line :
  no_record line \/
  exists d t sn msg rest dt,
    re_match app.pattern line = Some ([d; t; sn; msg], rest) /\
    app.resolve_date d = Ok (Some dt) /\
    line_records line = [mk_message dt t (strip sn) msg].
Proof.
  destruct (re_match app.pattern line) as [[groups rest]|] eqn:M;
    [|left; now left].
  destruct (pattern_shape _ _ _ M) as (d & t & sn & msg & -> & _).
  destruct (resolve_date_cases d)
    as [(dt & _ & R)|[(_ & dt & _ & R)|(E1 & E2 & _)]].
  - right. exists d, t, sn, msg, rest, dt. repeat split; auto.
    unfold line_records, app.loop_body. rewrite M. simpl. now rewrite R.
  - right. exists d, t, sn, msg, rest, dt. repeat split; auto.
    unfold line_records, app.loop_body. rewrite M. simpl. now rewrite R.
  - left. right. now exists d, t, sn, msg, rest.
Qed.

Lemma flat_map_nil {A B : Type} (f : A -> list B) l :
  flat_map f l = [] <-> forall x, In x l -> f x = [].
Proof.
  induction l as [|a l IH]; simpl.
  - split; [intros _ x []|reflexivity].
  - split.
    + intros H. apply app_eq_nil in H as [Ha Hl].
      intros x [<-|Hx]; [exact Ha|]. now apply IH.
    + intros H. rewrite (H a) by now left. simpl. apply IH.
      intros x Hx. apply H. now right.
Qed.

(** ** The parser *)

(** C1: the date token of a matched line is tried as month/day/2-digit
    year first; day/month/4-digit year is tried only when the first attempt
    raises [ValueError]; when both raise, the line adds no record and
    nothing is raised.  The token 03/04/23 resolves to 4 March 2023 by the
    first format. *)
Theorem date_resolution_priority line tok clock sn msg rest :
  re_match app.pattern line = Some ([tok; clock; sn; msg], rest) ->
  (forall fmt e, strptime tok fmt = Raise e -> e = ValueError) /\
  (forall d, strptime tok fmt_mdy = Ok d ->
     app.resolve_date tok = Ok (Some d) /\
     forall messages,
       app.loop_body messages line =
       Ok (messages ++ [mk_message d clock (strip sn) msg])) /\
  (forall d, strptime tok fmt_mdy = Raise ValueError ->
     strptime tok fmt_dmY = Ok d ->
     app.resolve_date tok = Ok (Some d) /\
     forall messages,
       app.loop_body messages line =
       Ok (messages ++ [mk_message d clock (strip sn) msg])) /\
  (strptime tok fmt_mdy = Raise ValueError ->
   strptime tok fmt_dmY = Raise ValueError ->
   app.resolve_date tok = Ok None /\
   forall messages, app.loop_body messages line = Ok messages) /\
  strptime (lit "03/04/23") fmt_mdy = Ok (mk_datetime 2023 3 4 0 0 0 0) /\
  app.resolve_date (lit "03/04/23") = Ok (Some (mk_datetime 2023 3 4 0 0 0 0)).
Proof.
  intros M. unfold app.loop_body, app.resolve_date. rewrite M.
  split; [intros fmt e; apply strptime_raises|].
  split; [intros d E1; rewrite E1; simpl; rewrite E1; auto|].
  split; [intros d E1 E2; rewrite E1, E2; simpl; rewrite E1, E2; auto|].
  split; [intros E1 E2; rewrite E1, E2; simpl; rewrite E1, E2; auto|].
  split; vm_compute; reflexivity.
Qed.

Lemma date_resolution_priority_witness :
  app.loop_body [] (lit "03/04/23, 10:00 - Bob: hi") =
  Ok [mk_message (mk_datetime 2023 3 4 0 0 0 0) (lit "10:00") (lit "Bob")
        (lit "hi")].
Proof.
  assert (M : re_match app.pattern (lit "03/04/23, 10:00 - Bob: hi") =
              Some ([lit "03/04/23"; lit "10:00"; lit "Bob"; lit "hi"], []))
    by (vm_compute; reflexivity).
  destruct (date_resolution_priority _ _ _ _ _ _ M) as (_ & H & _).
  destruct (H (mk_datetime 2023 3 4 0 0 0 0)) as [_ L];
    [vm_compute; reflexivity|].
  exact (L []).
Defined.

(** For [parse_chat] of [app.py]: when no line of the text yields a record
    (it fails the grammar, or its date token fails both formats) it returns
    [None], and only then; a frame it returns is never empty. *)
Theorem parse_chat_no_data file_content :
  ((forall line, In line (split_nl file_content) -> no_record line) <->
   app.parse_chat file_content = Ok None) /\
  (forall df, app.parse_chat file_content = Ok (Some df) ->
     rows df <> [] /\ empty df = false).
Proof.
  rewrite parse_chat_records. split; [split|].
  - intros H.
    assert (E : flat_map line_records (split_nl file_content) = []).
    { apply flat_map_nil. intros l Hl. apply no_record_records, H, Hl. }
    now rewrite E.
  - intros H line Hl.
    destruct (flat_map line_records (split_nl file_content)) eqn:E;
      [|discriminate].
    rewrite flat_map_nil in E.
    destruct (line_cases line) as [N|(d & t & sn & msg & rest & dt & _ & _ & R)];
      [exact N|].
    rewrite (E _ Hl) in R. discriminate.
  - intros df H.
    destruct (flat_map line_records (split_nl file_content)); [discriminate|].
    injection H as <-. split; [discriminate|reflexivity].
Qed.

Lemma parse_chat_no_data_witness :
  app.parse_chat (lit "not a message line") = Ok None /\
  (forall df, app.parse_chat example_text = Ok (Some df) -> empty df = false).
Proof.
  split.
  - apply (parse_chat_no_data (lit "not a message line")).
    intros line [<-|[]]. left. vm_compute. reflexivity.
  - intros df H. now apply (parse_chat_no_data example_text).
Defined.

(** C6: a line of the text that matches the grammar and whose date parses
    adds exactly one record; its sender is the captured name stripped, with
    no white space at either end, and its message is everything that
    follows the prefix [<date>, <time> - <sender>: ] in the line. *)
Theorem record_sender_and_message file_content line tok others rest dt :
  In line (split_nl file_content) ->
  re_match app.pattern line = Some (tok :: others, rest) ->
  app.resolve_date tok = Ok (Some dt) ->
  exists r t sn,
    (forall messages, app.loop_body messages line = Ok (messages ++ [r])) /\
    line = (tok ++ lit ", " ++ t ++ lit " - " ++ sn ++ lit ": ") ++ message r /\
    sender r = strip sn /\
    no_surrounding_space (sender r) /\
    date r = dt /\ time r = t /\
    date_token tok /\ time_token t /\ sn <> [] /\ ~ In ":"%char sn /\
    message r <> [].
Proof.
  intros Hl M R.
  destruct (pattern_shape _ _ _ M)
    as (d & t & sn & msg & E & Hline & Hd & Ht & Hsn & Hcolon & Hmsg & _ & Hrest).
  injection E as <- ->.
  assert (rest = []) as ->.
  { destruct rest as [|c r]; [reflexivity|].
    rewrite (Hrest c r eq_refl) in Hline.
    exfalso. apply (split_nl_no_newline _ _ Hl). rewrite Hline.
    repeat (apply in_or_app; right). now left. }
  exists (mk_message dt t (strip sn) msg), t, sn. simpl.
  split.
  { intros messages. unfold app.loop_body. rewrite M. simpl. now rewrite R. }
  split.
  { rewrite Hline at 1. rewrite app_nil_r. cbn. rewrite <- !app_assoc. cbn.
    rewrite <- !app_assoc. cbn. rewrite <- !app_assoc. reflexivity. }
  repeat split; auto; apply strip_no_surrounding_space.
Qed.

Lemma record_sender_and_message_witness :
  exists r,
    app.loop_body [] (lit "12/1/23, 09:15 -  Alice : hi: there") = Ok [r] /\
    sender r = lit "Alice" /\ message r = lit "hi: there".
Proof.
  destruct (record_sender_and_message
              (lit "12/1/23, 09:15 -  Alice : hi: there")
              (lit "12/1/23, 09:15 -  Alice : hi: there")
              (lit "12/1/23")
              [lit "09:15"; lit " Alice "; lit "hi: there"] []
              (mk_datetime 2023 12 1 0 0 0 0))
    as (r & t & sn & L & Hline & Hs & _);
    [left; reflexivity|vm_compute; reflexivity|vm_compute; reflexivity|].
  exists r. specialize (L []).
  assert (E : app.loop_body [] (lit "12/1/23, 09:15 -  Alice : hi: there") =
              Ok [mk_message (mk_datetime 2023 12 1 0 0 0 0) (lit "09:15")
                    (lit "Alice") (lit "hi: there")])
    by (vm_compute; reflexivity).
  rewrite E in L. simpl in L. injection L as <-. rewrite E. auto.
Defined.

(** C9: [parse_chat] returns on every text, without raising; a line that
    fails the grammar, or whose date token fails both formats, leaves
    [messages] as it was, and the lines around it are parsed as if it were
    not there. *)
Theorem parser_skips_malformed_lines :
  (forall file_content, exists r, app.parse_chat file_content = Ok r) /\
  (forall messages line,
     no_record line -> app.loop_body messages line = Ok messages) /\
  (forall pre post bad messages,
     no_record bad ->
     for_each app.loop_body (pre ++ bad :: post) messages =
     for_each app.loop_body (pre ++ post) messages) /\
  (forall before after bad,
     no_record bad -> ~ In newline bad ->
     app.parse_chat (before ++ newline :: bad ++ newline :: after) =
     app.parse_chat (before ++ newline :: after)).
Proof.
  split; [intros fc; rewrite parse_chat_records; eauto|].
  split.
  { intros messages line N. rewrite loop_body_records.
    now rewrite (no_record_records _ N), app_nil_r. }
  split.
  { intros pre post bad messages N. rewrite !for_each_records.
    rewrite !flat_map_app. simpl. now rewrite (no_record_records _ N). }
  intros before after bad N Hnl. rewrite !parse_chat_records.
  rewrite !split_nl_app, (split_nl_line _ Hnl).
  rewrite !flat_map_app. simpl. now rewrite (no_record_records _ N).
Qed.

Lemma parser_skips_malformed_lines_witness :
  app.parse_chat
    (lit "12/1/23, 09:15 - Alice: hi" ++ newline ::
     lit "31/31/23, 09:15 - Alice: hi" ++ newline ::
     lit "12/2/23, 23:05 - Alice: bye") =
  app.parse_chat
    (lit "12/1/23, 09:15 - Alice: hi" ++ newline ::
     lit "12/2/23, 23:05 - Alice: bye").
Proof.
  apply (proj2 (proj2 (proj2 parser_skips_malformed_lines))).
  - right.
    exists (lit "31/31/23"), (lit "09:15"), (lit "Alice"), (lit "hi"), [].
    repeat split; vm_compute; reflexivity.
  - vm_compute. intuition discriminate.
Defined.

(** ** Counting and sorting *)

Section CountingFacts.

Context {K : Type} (eqb : K -> K -> bool).

Lemma total_bump k (s : Series K) : total (bump eqb k s) = S (total s).
Proof.
  induction s as [|[k' n] s IH]; simpl; [reflexivity|].
  destruct (eqb k k'); simpl; [reflexivity|]. rewrite IH. lia.
Qed.

Lemma total_fold_bump l : forall acc : Series K,
  total (fold_left (fun a k => bump eqb k a) l acc) =
  (List.length l + total acc)%nat.
Proof.
  induction l as [|k l IH]; intros acc; simpl; [reflexivity|].
  rewrite IH, total_bump. lia.
Qed.

Lemma total_count_keys l : total (count_keys eqb l) = List.length l.
Proof. unfold count_keys. rewrite total_fold_bump. simpl. lia. Qed.

Lemma keys_bump k k0 (s : Series K) :
  In k0 (keys (bump eqb k s)) -> k0 = k \/ In k0 (keys s).
Proof.
  induction s as [|[k' n] s IH]; simpl.
  - intros [<-|[]]. now left.
  - destruct (eqb k k'); simpl; [now right|].
    intros [<-|H]; [right; now left|].
    destruct (IH H); [now left|right; now right].
Qed.

Lemma keys_fold_bump l : forall (acc : Series K) k0,
  In k0 (keys (fold_left (fun a k => bump eqb k a) l acc)) ->
  In k0 l \/ In k0 (keys acc).
Proof.
  induction l as [|k l IH]; intros acc k0 H; simpl in *; [now right|].
  destruct (IH _ _ H) as [Hl|Hb]; [left; now right|].
  destruct (keys_bump _ _ _ Hb) as [->|Ha]; [left; now left|now right].
Qed.

Lemma keys_count_keys l k0 : In k0 (keys (count_keys eqb l)) -> In k0 l.
Proof.
  intros H. destruct (keys_fold_bump _ _ _ H) as [Hl|[]]. exact Hl.
Qed.

End CountingFacts.

Section SortingFacts.

Context {A : Type} (le : A -> A -> bool).

Lemma insert_by_perm x l : Permutation (x :: l) (insert_by le x l).
Proof.
  induction l as [|y l IH]; simpl; [reflexivity|].
  destruct (le x y); [reflexivity|].
  rewrite perm_swap. now constructor.
Qed.

Lemma sort_by_perm l : Permutation l (sort_by le l).
Proof.
  induction l as [|x l IH]; simpl; [reflexivity|].
  rewrite <- insert_by_perm. now constructor.
Qed.

End SortingFacts.

Lemma total_perm {K : Type} (s s' : Series K) :
  Permutation s s' -> total s = total s'.
Proof.
  induction 1 as [|x l l' _ IH|x y l|l l' l'' _ IH1 _ IH2]; simpl;
    [reflexivity|now rewrite IH|lia|congruence].
Qed.

Lemma total_sort_by {K : Type} le (s : Series K) :
  total (sort_by le s) = total s.
Proof. symmetry. apply total_perm, sort_by_perm. Qed.

Lemma keys_sort_by {K : Type} le (s : Series K) k :
  In k (keys (sort_by le s)) -> In k (keys s).
Proof.
  unfold keys. intros H.
  eapply Permutation_in; [|exact H].
  apply Permutation_map, Permutation_sym, sort_by_perm.
Qed.

Lemma total_value_counts {K : Type} eqb (l : list K) :
  total (value_counts eqb l) = List.length l.
Proof.
  unfold value_counts, sort_values_desc.
  now rewrite total_sort_by, total_count_keys.
Qed.

Lemma total_groupby_size {K : Type} eqb le (l : list K) :
  total (groupby_size eqb le l) = List.length l.
Proof.
  unfold groupby_size. now rewrite total_sort_by, total_count_keys.
Qed.

Lemma keys_groupby_size {K : Type} eqb le (l : list K) k :
  In k (keys (groupby_size eqb le l)) -> In k l.
Proof.
  unfold groupby_size. intros H.
  now apply keys_sort_by, keys_count_keys in H.
Qed.

(** ** The hour of a time token *)

Lemma is_digit_cases c : is_digit c = true -> In c (lit "0123456789").
Proof.
  destruct c as [[] [] [] [] [] [] [] []]; intros H; vm_compute in H;
    try discriminate H; vm_compute; tauto.
Qed.

Lemma py_int_two_digits a b :
  is_digit a = true -> is_digit b = true ->
  py_int [a; b] = Ok (10 * digit_value a + digit_value b) /\
  0 <= 10 * digit_value a + digit_value b <= 99.
Proof.
  intros Ha Hb. apply is_digit_cases in Ha, Hb. simpl in Ha, Hb.
  repeat match goal with
         | H : _ \/ _ |- _ => destruct H as [H|H]
         | H : False |- _ => destruct H
         end; subst; (split; [vm_compute; reflexivity|vm_compute; intuition discriminate]).
Qed.

Lemma time_token_hour t :
  time_token t ->
  py_int (firstn 2 t) = Ok (leading_hour t) /\ 0 <= leading_hour t <= 99.
Proof.
  intros (a & b & c & d & -> & Ha & Hb & _). simpl firstn.
  unfold leading_hour. now apply py_int_two_digits.
Qed.

Lemma astype_int_hours (rs : list Message) :
  Forall (fun r => time_token (time r)) rs ->
  astype_int (map (fun r => firstn 2 (time r)) rs) =
  Ok (map (fun r => leading_hour (time r)) rs).
Proof.
  induction 1 as [|r rs Hr _ IH]; [reflexivity|].
  cbn [astype_int map]. destruct (time_token_hour _ Hr) as [-> _].
  cbn [bind]. now rewrite IH.
Qed.

(** ** The filter *)

Lemma select_map {A : Type} (f : A -> bool) l :
  select (map f l) l = filter f l.
Proof.
  induction l as [|x l IH]; simpl; [reflexivity|].
  destruct (f x); now rewrite IH.
Qed.

Lemma filter_filter {A : Type} (f g : A -> bool) l :
  filter g (filter f l) = filter (fun x => f x && g x) l.
Proof.
  induction l as [|x l IH]; simpl; [reflexivity|].
  destruct (f x); simpl; [destruct (g x)|]; now rewrite IH.
Qed.

Lemma filtered_rows df start_date end_date :
  rows (app.filtered df start_date end_date) =
  filter (in_bounds start_date end_date) (rows df).
Proof.
  unfold app.filtered, app.from_start, app.until_end, in_bounds.
  destruct start_date as [s|], end_date as [e|]; simpl;
    rewrite ?select_map, ?filter_filter.
  - reflexivity.
  - apply filter_ext. intros r. now rewrite andb_true_r.
  - reflexivity.
  - induction (rows df) as [|r l IH]; simpl; [reflexivity|]. now rewrite <- IH.
Qed.

Lemma lex_compare_refl l : lex_compare l l = Eq.
Proof.
  induction l as [|x l IH]; simpl; [reflexivity|]. now rewrite Z.compare_refl.
Qed.

Lemma dt_leb_refl d : dt_leb d d = true.
Proof. unfold dt_leb, dt_compare. now rewrite lex_compare_refl. Qed.

Lemma well_timed_filtered df start_date end_date :
  well_timed df -> well_timed (app.filtered df start_date end_date).
Proof.
  unfold well_timed. rewrite filtered_rows. intros H.
  rewrite Forall_forall in *. intros r Hr. apply filter_In in Hr as [Hr _].
  now apply H.
Qed.

Lemma filtered_unbounded df :
  app.filtered df None None = df.
Proof. reflexivity. Qed.

(** What [analyze_chat] returns on a non-empty frame of parsed records. *)
Lemma analyze_chat_returns df start_date end_date :
  empty df = false -> well_timed df ->
  let rs := rows (app.filtered df start_date end_date) in
  let hours := map (fun r => leading_hour (time r)) rs in
  app.analyze_chat (Some df) start_date end_date =
  Ok ((Some (value_counts str_eqb (map sender rs)),
       Some (sort_values_desc (groupby_size dt_eqb dt_leb (map date rs))),
       Some (groupby_size Z.eqb Z.leb hours)),
      Some (if app.shared start_date end_date
            then set_hour (app.filtered df start_date end_date) hours
            else df)).
Proof.
  intros He Hw rs hours. subst rs hours. unfold app.analyze_chat. rewrite He.
  rewrite (astype_int_hours _ (well_timed_filtered _ start_date end_date Hw)).
  reflexivity.
Qed.

Lemma parse_chat_well_timed file_content df :
  app.parse_chat file_content = Ok (Some df) ->
  empty df = false /\ well_timed df /\ hour_column df = None.
Proof.
  rewrite parse_chat_records. intros H.
  destruct (flat_map line_records (split_nl file_content)) as [|m ms] eqn:E;
    [discriminate|].
  injection H as <-. split; [reflexivity|]. split; [|reflexivity].
  unfold well_timed. simpl rows. rewrite <- E. clear E.
  rewrite Forall_forall. intros r Hr. apply in_flat_map in Hr as (line & _ & Hr).
  destruct (line_cases line) as [N|(d & t & sn & msg & rest & dt & M & _ & R)].
  - rewrite (no_record_records _ N) in Hr. destruct Hr.
  - rewrite R in Hr. destruct Hr as [<-|[]]. simpl.
    destruct (pattern_shape _ _ _ M) as (? & ? & ? & ? & E & _ & _ & Ht & _).
    now injection E as <- <- <- <-.
Qed.

(** ** The aggregator *)

(** C3: [analyze_chat] returns the triple of [None] when it is given no
    frame or an empty one.  When the frame is not empty and the date filter
    leaves no row, it returns three empty summaries instead: here for the
    frame of one message of 1 December 2023 and the bounds of 2 December
    2023. *)
Theorem analyze_chat_empty_selection :
  (forall s e, app.analyze_chat None s e = Ok ((None, None, None), None)) /\
  (forall hc s e,
     app.analyze_chat (Some (mk_frame [] hc)) s e =
     Ok ((None, None, None), Some (mk_frame [] hc))) /\
  app.parse_chat one_message_text = Ok (Some one_message_frame) /\
  rows (app.filtered one_message_frame (Some dec_2_start) (Some dec_2_end))
  = [] /\
  app.analyze_chat (Some one_message_frame) (Some dec_2_start)
    (Some dec_2_end) =
  Ok ((Some [], Some [], Some []), Some one_message_frame).
Proof.
  split; [reflexivity|]. split; [reflexivity|].
  repeat split; vm_compute; reflexivity.
Qed.

(** C4, as stated, fails: the record of a line with the time token 99:99
    is counted in the hourly bucket 99. *)
Lemma hourly_key_above_23 :
  ~ (forall file_content df s e p d h df',
       app.parse_chat file_content = Ok (Some df) ->
       app.analyze_chat (Some df) s e = Ok ((p, d, Some h), df') ->
       total h = List.length (rows (app.filtered df s e)) /\
       forall k, In k (keys h) -> 0 <= k <= 23).
Proof.
  intros H.
  destruct (H (clock_line "9" "9" "9" "9")
              (new_frame [clock_record "9" "9" "9" "9"]) None None
              (Some [(lit "Bob", 1%nat)])
              (Some [(mk_datetime 2023 1 2 0 0 0 0, 1%nat)])
              [(99, 1%nat)]
              (Some (mk_frame [clock_record "9" "9" "9" "9"] (Some [99]))))
    as [_ B]; [vm_compute; reflexivity|vm_compute; reflexivity|].
  specialize (B 99 (or_introl eq_refl)). lia.
Qed.

(** C4, amended: on a non-empty frame of parsed records the hourly counts
    sum to the number of filtered records, and every bucket key is the
    number written by the two leading digits of the time token of a
    filtered record, so it lies in [0, 99]. *)
Theorem hourly_counts df start_date end_date :
  empty df = false -> well_timed df ->
  exists p d h df',
    app.analyze_chat (Some df) start_date end_date = Ok ((p, d, Some h), df') /\
    total h = List.length (rows (app.filtered df start_date end_date)) /\
    forall k, In k (keys h) ->
      0 <= k <= 99 /\
      exists r, In r (rows (app.filtered df start_date end_date)) /\
                k = leading_hour (time r).
Proof.
  intros He Hw. eexists _, _, _, _.
  split; [apply (analyze_chat_returns df start_date end_date He Hw)|].
  split; [now rewrite total_groupby_size, length_map|].
  intros k Hk. apply keys_groupby_size, in_map_iff in Hk as (r & <- & Hr).
  split; [|now exists r].
  pose proof (well_timed_filtered _ start_date end_date Hw) as Hf.
  unfold well_timed in Hf. rewrite Forall_forall in Hf.
  now apply time_token_hour, Hf.
Qed.

Lemma hourly_counts_witness :
  exists p d h df',
    app.analyze_chat (Some one_message_frame) None None =
    Ok ((p, d, Some h), df') /\
    total h = 1%nat.
Proof.
  destruct (parse_chat_well_timed one_message_text one_message_frame)
    as (He & Hw & _); [vm_compute; reflexivity|].
  destruct (hourly_counts one_message_frame None None He Hw)
    as (p & d & h & df' & A & T & _).
  now exists p, d, h, df'.
Defined.

(** C5: the rows kept are those with [date >= start] when a start is given
    and [date <= end] when an end is given, in their order; a row dated
    exactly [start], or exactly [end], is kept. *)
Theorem filter_inclusive df start_date end_date :
  rows (app.filtered df start_date end_date) =
  filter (in_bounds start_date end_date) (rows df) /\
  (forall r,
     In r (rows (app.filtered df start_date end_date)) <->
     In r (rows df) /\
     (forall s, start_date = Some s -> dt_leb s (date r) = true) /\
     (forall e, end_date = Some e -> dt_leb (date r) e = true)) /\
  (forall r, In r (rows df) ->
     In r (rows (app.filtered df (Some (date r)) None)) /\
     In r (rows (app.filtered df None (Some (date r))))) /\
  (forall r s e, In r (rows df) -> dt_leb s e = true ->
     date r = s \/ date r = e ->
     In r (rows (app.filtered df (Some s) (Some e)))).
Proof.
  split; [apply filtered_rows|].
  split.
  { intros r. rewrite filtered_rows, filter_In. unfold in_bounds, dt_geb.
    split.
    - intros [Hr Hb]. apply andb_prop in Hb as [Hs He].
      split; [exact Hr|]. split; [intros s ->|intros e ->]; assumption.
    - intros (Hr & Hs & He). split; [exact Hr|]. apply andb_true_intro.
      split; [destruct start_date; auto|destruct end_date; auto]. }
  split.
  { intros r Hr. rewrite !filtered_rows, !filter_In.
    unfold in_bounds, dt_geb. now rewrite dt_leb_refl. }
  intros r s e Hr Hse Hd. rewrite filtered_rows, filter_In.
  unfold in_bounds, dt_geb. split; [exact Hr|].
  destruct Hd as [->| ->]; now rewrite dt_leb_refl, Hse.
Qed.

Lemma filter_inclusive_witness :
  In (mk_message (mk_datetime 2023 12 1 0 0 0 0) (lit "09:15") (lit "Alice")
        (lit "hi"))
     (rows (app.filtered one_message_frame
              (Some (mk_datetime 2023 12 1 0 0 0 0))
              (Some (mk_datetime 2023 12 1 0 0 0 0)))).
Proof.
  apply (proj2 (proj2 (proj2 (filter_inclusive one_message_frame None None)))).
  - left. reflexivity.
  - reflexivity.
  - left. reflexivity.
Defined.

(** C7: on a non-empty frame of parsed records the counts per participant
    sum to the number of filtered records, and every participant counted
    is the sender of a filtered record. *)
Theorem participant_counts df start_date end_date :
  empty df = false -> well_timed df ->
  exists p d h df',
    app.analyze_chat (Some df) start_date end_date = Ok ((Some p, d, h), df') /\
    total p = List.length (rows (app.filtered df start_date end_date)) /\
    forall k, In k (keys p) ->
      exists r, In r (rows (app.filtered df start_date end_date)) /\
                sender r = k.
Proof.
  intros He Hw. eexists _, _, _, _.
  split; [apply (analyze_chat_returns df start_date end_date He Hw)|].
  split; [now rewrite total_value_counts, length_map|].
  intros k Hk. unfold value_counts, sort_values_desc in Hk.
  apply keys_sort_by, keys_count_keys, in_map_iff in Hk as (r & <- & Hr).
  now exists r.
Qed.

Lemma participant_counts_witness :
  exists p d h df',
    app.analyze_chat (Some example_frame) (Some dec_2_start) None =
    Ok ((Some p, d, h), df') /\
    List.length (rows (app.filtered example_frame (Some dec_2_start) None))
    = 1%nat /\
    total p = 1%nat /\
    exists r, In r (rows example_frame) /\ sender r = lit "Alice".
Proof.
  destruct (parse_chat_well_timed example_text example_frame)
    as (He & Hw & _); [vm_compute; reflexivity|].
  destruct (participant_counts example_frame (Some dec_2_start) None
              He Hw) as (p & d & h & df' & A & T & K).
  exists p, d, h, df'. split; [exact A|]. split; [reflexivity|].
  split; [exact T|].
  assert (E : p = [(lit "Alice", 1%nat)]).
  { rewrite (analyze_chat_returns example_frame (Some dec_2_start) None
               He Hw) in A.
    injection A as <- _ _ _. reflexivity. }
  destruct (K (lit "Alice")) as (r & Hr & Hs); [rewrite E; now left|].
  exists r. split; [|exact Hs].
  rewrite filtered_rows in Hr. now apply filter_In in Hr.
Defined.

(** The caller's frame is not always left as it was: called without
    bounds, [analyze_chat] writes the column ['hour'] into it. *)
Lemma analyze_chat_writes_hour_column :
  ~ (forall df s e out df',
       app.analyze_chat (Some df) s e = Ok (out, df') -> df' = Some df).
Proof.
  intros H.
  specialize (H one_message_frame None None
                (Some [(lit "Alice", 1%nat)],
                 Some [(mk_datetime 2023 12 1 0 0 0 0, 1%nat)],
                 Some [(9, 1%nat)])
                (Some (set_hour one_message_frame [9]))).
  discriminate H. vm_compute. reflexivity.
Qed.

(** A second call on the frame as the first call left it, with the same
    bounds, returns the same three summaries and changes nothing more; a
    call never changes the rows; with a bound given the frame is left as it
    was, and without bounds the only change is the column ['hour']. *)
Theorem analyze_chat_idempotent df start_date end_date out df' :
  app.analyze_chat df start_date end_date = Ok (out, df') ->
  app.analyze_chat df' start_date end_date = Ok (out, df') /\
  option_map rows df' = option_map rows df /\
  (app.shared start_date end_date = false -> df' = df) /\
  (app.shared start_date end_date = true ->
   df' = df \/
   exists d hours, df = Some d /\ df' = Some (set_hour d hours)).
Proof.
  unfold app.analyze_chat. destruct df as [d|].
  2:{ intros [= <- <-]. repeat split; auto. }
  destruct (empty d) eqn:He.
  { intros [= <- <-]. rewrite He. repeat split; auto. }
  destruct (astype_int _) as [hours|x] eqn:Hh; [|discriminate].
  cbn [bind]. intros [= <- <-].
  destruct (app.shared start_date end_date) eqn:Hs.
  - destruct start_date, end_date; try discriminate Hs.
    change (app.filtered d None None) with d in *.
    change (app.filtered (set_hour d hours) None None)
      with (set_hour d hours).
    change (empty (set_hour d hours)) with (empty d).
    change (rows (set_hour d hours)) with (rows d).
    rewrite He, Hh. cbn [bind app.shared].
    repeat split; eauto. discriminate.
  - rewrite He, Hh. cbn [bind]. repeat split; auto; discriminate.
Qed.

Lemma analyze_chat_idempotent_witness :
  app.analyze_chat (Some (set_hour one_message_frame [9])) None None =
  Ok ((Some [(lit "Alice", 1%nat)],
       Some [(mk_datetime 2023 12 1 0 0 0 0, 1%nat)],
       Some [(9, 1%nat)]),
      Some (set_hour one_message_frame [9])).
Proof.
  apply (analyze_chat_idempotent (Some one_message_frame) None None).
  vm_compute. reflexivity.
Defined.

(** C10: no check of the clock is made.  A line whose time token is any
    two digits, a colon and two digits yields a record, and the hourly
    summary counts it under the number its two leading digits write; for
    99:99 that is the bucket 99. *)
Theorem no_clock_check a b c d :
  is_digit a = true -> is_digit b = true ->
  is_digit c = true -> is_digit d = true ->
  app.parse_chat (clock_line a b c d) =
  Ok (Some (new_frame [clock_record a b c d])) /\
  exists p dl df',
    app.analyze_chat (Some (new_frame [clock_record a b c d])) None None =
    Ok ((p, dl, Some [(10 * digit_value a + digit_value b, 1%nat)]), df').
Proof.
  intros Ha Hb Hc Hd. split.
  - apply is_digit_cases in Ha, Hb, Hc, Hd. simpl in Ha, Hb, Hc, Hd.
    repeat match goal with
           | H : _ \/ _ |- _ => destruct H as [H|H]
           | H : False |- _ => destruct H
           end; subst; vm_compute; reflexivity.
  - eexists _, _, _.
    rewrite (analyze_chat_returns (new_frame [clock_record a b c d]) None None).
    + reflexivity.
    + reflexivity.
    + repeat constructor. now exists a, b, c, d.
Qed.

Lemma no_clock_check_witness :
  app.parse_chat (lit "1/2/23, 99:99 - Bob: hi") =
  Ok (Some (new_frame [clock_record "9" "9" "9" "9"])) /\
  exists p dl df',
    app.analyze_chat (Some (new_frame [clock_record "9" "9" "9" "9"]))
      None None =
    Ok ((p, dl, Some [(99, 1%nat)]), df').
Proof.
  apply (no_clock_check "9" "9" "9" "9"); reflexivity.
Defined.

(** ** The earlier parser of [whatsapp_analyzer.py]

    The strict variant has neither the [None] result nor the handlers: on a
    text without a message line it returns a frame without rows, and a
    date token outside the calendar raises. *)
Remark earlier_parser_behaviour :
  whatsapp_analyzer.parse_chat (lit "not a message line") = Ok (new_frame []) /\
  whatsapp_analyzer.parse_chat (lit "31/02/2023, 10:00 - A: hi") =
  Raise ValueError /\
  app.parse_chat (lit "not a message line") = Ok None /\
  app.parse_chat (lit "31/02/2023, 10:00 - A: hi") = Ok None.
Proof. repeat split; vm_compute; reflexivity. Qed.

(** ** The example of the specification

    Four lines, the third not a message: three records; Alice 2 and Bob 1;
    two messages on 1 December 2023 and one on 2 December; hours 9 (twice)
    and 23.  With both bounds on 2 December one record is left. *)
Example end_to_end :
  exists df df',
    app.parse_chat example_text = Ok (Some df) /\
    List.length (rows df) = 3%nat /\
    app.analyze_chat (Some df) None None =
    Ok ((Some [(lit "Alice", 2%nat); (lit "Bob", 1%nat)],
         Some [(mk_datetime 2023 12 1 0 0 0 0, 2%nat);
               (mk_datetime 2023 12 2 0 0 0 0, 1%nat)],
         Some [(9, 2%nat); (23, 1%nat)]), df') /\
    List.length (rows (app.filtered df (Some dec_2_start) (Some dec_2_start)))
    = 1%nat /\
    app.analyze_chat (Some df) (Some dec_2_start) (Some dec_2_start) =
    Ok ((Some [(lit "Alice", 1%nat)],
         Some [(mk_datetime 2023 12 2 0 0 0 0, 1%nat)],
         Some [(23, 1%nat)]), Some df).
Proof.
  eexists _, _. repeat split; vm_compute; reflexivity.
Qed.

(** ** The matcher finds a match whenever there is one *)

Lemma rep_complete {A : Type} (cls : ascii -> bool) (k : str -> option A) s' :
  k s' <> None ->
  forall m lo hi,
    Forall (fun c => cls c = true) m ->
    (lo <= List.length m)%nat -> within hi (List.length m) ->
    rep cls lo hi (m ++ s') k <> None.
Proof.
  intros Hk. induction m as [|c m IH]; intros lo hi Hm Hlo Hhi.
  - simpl in Hlo. assert (lo = 0%nat) as -> by lia. simpl.
    destruct s' as [|c s']; simpl; [exact Hk|].
    destruct (cls c && hi_open hi); [|exact Hk].
    destruct (rep cls 0 (hi_pred hi) s' k); [discriminate|exact Hk].
  - inversion Hm as [|? ? Hc Hm']; subst. simpl app. simpl rep.
    assert (Ho : hi_open hi = true).
    { destruct hi as [[|h]|]; simpl in *; auto; lia. }
    rewrite Hc, Ho. simpl.
    assert (R : rep cls (Nat.pred lo) (hi_pred hi) (m ++ s') k <> None).
    { apply IH; [exact Hm'|simpl in Hlo; lia|].
      destruct hi as [h|]; simpl in *; lia. }
    destruct (rep cls (Nat.pred lo) (hi_pred hi) (m ++ s') k);
      [discriminate|contradiction].
Qed.

Lemma run_complete {A : Type} r m c c' :
  matches r m c c' ->
  forall s' (k : str -> list str -> option A),
    k s' c' <> None -> run r (m ++ s') c k <> None.
Proof.
  induction 1 as [x caps|cls lo hi m caps Hm Hlo Hhi
                 |r1 r2 m1 m2 c0 c1 c2 _ IH1 _ IH2
                 |r1 r2 m c0 c1 _ IH|r1 r2 m c0 c1 _ IH|r m c0 c1 _ IH];
    intros s' k Hk; simpl run.
  - simpl. now rewrite Ascii.eqb_refl.
  - now apply rep_complete.
  - rewrite <- app_assoc. apply IH1. now apply IH2.
  - specialize (IH s' k Hk).
    destruct (run r1 (m ++ s') c0 k); [discriminate|contradiction].
  - destruct (run r1 (m ++ s') c0 k); [discriminate|]. now apply IH.
  - apply IH.
    replace (List.length (m ++ s') - List.length s')%nat
      with (List.length m + 0)%nat by (rewrite length_app; lia).
    rewrite firstn_app_2. simpl. now rewrite app_nil_r.
Qed.

Lemma re_match_complete r m groups rest :
  matches r m [] groups -> re_match r (m ++ rest) <> None.
Proof.
  intros M. unfold re_match. apply (run_complete _ _ _ _ M). discriminate.
Qed.

(** A run of characters of a class, ended by a character outside it, is
    found in one way only. *)
Lemma split_unique (p : ascii -> bool) a a' c c' (x x' : str) :
  Forall (fun u => p u = true) a -> Forall (fun u => p u = true) a' ->
  p c = false -> p c' = false ->
  a ++ c :: x = a' ++ c' :: x' -> a = a' /\ c = c' /\ x = x'.
Proof.
  intros Ha. revert a'. induction Ha as [|u a Hu _ IH]; intros a' Ha' Hc Hc' E.
  - destruct a' as [|u' a']; simpl in E.
    + now injection E as -> ->.
    + injection E as -> _. inversion Ha'; subst. congruence.
  - destruct a' as [|u' a']; simpl in E.
    + injection E as -> _. congruence.
    + injection E as -> E. inversion Ha'; subst.
      destruct (IH a') as (-> & -> & ->); auto.
Qed.

(** ** The line grammar, both ways *)

Lemma matches_text_intro s c : lit s <> [] -> matches (text s) (lit s) c c.
Proof.
  unfold text. generalize (lit s). intros l.
  induction l as [|x l IH]; intros Hne; [contradiction|].
  destruct l as [|y l].
  - simpl. constructor.
  - change (cat_all (map Lit (x :: y :: l)))
      with (Cat (Lit x) (cat_all (map Lit (y :: l)))).
    change (x :: y :: l) with ([x] ++ y :: l).
    econstructor; [constructor|]. apply IH. discriminate.
Qed.

Lemma matches_date_intro d c :
  date_token d ->
  matches (cat_all [Rep is_digit 1 (Some 2%nat); Lit "/";
                    Rep is_digit 1 (Some 2%nat); Lit "/";
                    Rep is_digit 2 (Some 4%nat)]) d c c.
Proof.
  intros (a & b & y & -> & Ha & Hb & Hy & La & Lb & Ly). cbn.
  change (a ++ "/"%char :: b ++ "/"%char :: y)
    with (a ++ ["/"%char] ++ b ++ ["/"%char] ++ y).
  eapply m_cat; [constructor; auto; simpl; lia|].
  eapply m_cat; [constructor|].
  eapply m_cat; [constructor; auto; simpl; lia|].
  eapply m_cat; [constructor|].
  constructor; auto; simpl; lia.
Qed.

Lemma matches_time_intro t c :
  time_token t ->
  matches (cat_all [Rep is_digit 2 (Some 2%nat); Lit ":";
                    Rep is_digit 2 (Some 2%nat)]) t c c.
Proof.
  intros (a & b & x & y & -> & Ha & Hb & Hx & Hy). cbn.
  change [a; b; ":"%char; x; y] with ([a; b] ++ [":"%char] ++ [x; y]).
  eapply m_cat; [constructor; simpl; auto|].
  eapply m_cat; [constructor|].
  constructor; simpl; auto.
Qed.

Lemma not_in_is_not x s :
  ~ In x s -> Forall (fun c => is_not x c = true) s.
Proof.
  intros H. apply Forall_forall. intros c Hc. unfold is_not.
  destruct (Ascii.eqb_spec c x) as [->|]; [contradiction|reflexivity].
Qed.

Lemma pattern_matches d t sn msg :
  date_token d -> time_token t -> sn <> [] -> ~ In ":"%char sn ->
  msg <> [] -> ~ In newline msg ->
  matches app.pattern (line_of_fields d t sn msg) [] [d; t; sn; msg].
Proof.
  intros Hd Ht Hsn Hcolon Hmsg Hnl. unfold line_of_fields.
  change app.pattern with
    (Cat (Group (cat_all [Rep is_digit 1 (Some 2%nat); Lit "/";
                          Rep is_digit 1 (Some 2%nat); Lit "/";
                          Rep is_digit 2 (Some 4%nat)]))
      (Cat (text ", ")
        (Cat (Group (cat_all [Rep is_digit 2 (Some 2%nat); Lit ":";
                              Rep is_digit 2 (Some 2%nat)]))
          (Cat (text " - ")
            (Cat (Group (Rep (is_not ":") 1 None))
              (Cat (text ": ") (Group (Rep dot 1 None)))))))).
  apply (m_cat _ _ d _ [] [d]);
    [apply (m_group _ _ [] []), matches_date_intro, Hd|].
  apply (m_cat _ _ (lit ", ") _ [d] [d]);
    [apply matches_text_intro; discriminate|].
  apply (m_cat _ _ t _ [d] [d; t]);
    [apply (m_group _ _ [d] [d]), matches_time_intro, Ht|].
  apply (m_cat _ _ (lit " - ") _ [d; t] [d; t]);
    [apply matches_text_intro; discriminate|].
  apply (m_cat _ _ sn _ [d; t] [d; t; sn]).
  { apply (m_group _ _ [d; t] [d; t]). constructor.
    - now apply not_in_is_not.
    - destruct sn; [contradiction|simpl; lia].
    - exact I. }
  apply (m_cat _ _ (lit ": ") _ [d; t; sn] [d; t; sn]);
    [apply matches_text_intro; discriminate|].
  apply (m_group _ _ [d; t; sn] [d; t; sn]). constructor.
  - now apply not_in_is_not.
  - destruct msg; [contradiction|simpl; lia].
  - exact I.
Qed.

Lemma date_token_chars d :
  date_token d -> Forall (fun c => date_char c = true) d.
Proof.
  intros (a & b & y & -> & Ha & Hb & Hy & _).
  assert (W : forall s, digits s -> Forall (fun c => date_char c = true) s).
  { intros s H. eapply Forall_impl; [|exact H].
    intros c Hc. unfold date_char. now rewrite Hc. }
  apply Forall_app. split; [now apply W|]. constructor; [reflexivity|].
  apply Forall_app. split; [now apply W|]. constructor; [reflexivity|].
  now apply W.
Qed.

Lemma time_token_chars t :
  time_token t -> Forall (fun c => time_char c = true) t.
Proof.
  intros (a & b & x & y & -> & Ha & Hb & Hx & Hy). unfold time_char.
  repeat constructor; try rewrite Ha; try rewrite Hb; try rewrite Hx;
    try rewrite Hy; reflexivity.
Qed.

Lemma fields_unique d t sn msg d' t' sn' msg' :
  date_token d -> time_token t -> ~ In ":"%char sn ->
  date_token d' -> time_token t' -> ~ In ":"%char sn' ->
  line_of_fields d t sn msg = line_of_fields d' t' sn' msg' ->
  d = d' /\ t = t' /\ sn = sn' /\ msg = msg'.
Proof.
  intros Hd Ht Hsn Hd' Ht' Hsn' E. unfold line_of_fields in E. cbn in E.
  apply (split_unique date_char) in E as (-> & _ & E);
    [|now apply date_token_chars|now apply date_token_chars
     |reflexivity|reflexivity].
  injection E as E.
  apply (split_unique time_char) in E as (-> & _ & E);
    [|now apply time_token_chars|now apply time_token_chars
     |reflexivity|reflexivity].
  injection E as E.
  apply (split_unique (is_not ":")) in E as (-> & _ & E);
    [|now apply not_in_is_not|now apply not_in_is_not
     |reflexivity|reflexivity].
  injection E as E. auto.
Qed.

Lemma line_accepted d t sn msg :
  ~ In newline (line_of_fields d t sn msg) ->
  date_token d -> time_token t -> sn <> [] -> ~ In ":"%char sn -> msg <> [] ->
  re_match app.pattern (line_of_fields d t sn msg) = Some ([d; t; sn; msg], []).
Proof.
  intros Hnl Hd Ht Hsn Hc Hm.
  assert (Hmsg : ~ In newline msg).
  { intros H. apply Hnl. unfold line_of_fields.
    repeat (apply in_or_app; right). exact H. }
  pose proof (re_match_complete _ _ _ []
                (pattern_matches d t sn msg Hd Ht Hsn Hc Hm Hmsg)) as C.
  rewrite app_nil_r in C.
  destruct (re_match app.pattern (line_of_fields d t sn msg))
    as [[groups rest]|] eqn:M; [|contradiction].
  destruct (pattern_shape _ _ _ M)
    as (d' & t' & sn' & msg' & -> & Hline & Hd' & Ht' & _ & Hc' & _ & _ & Hr).
  assert (rest = []) as ->.
  { destruct rest as [|c r]; [reflexivity|].
    rewrite (Hr c r eq_refl) in Hline. exfalso. apply Hnl.
    rewrite Hline. repeat (apply in_or_app; right). now left. }
  rewrite app_nil_r in Hline.
  change (line_of_fields d t sn msg = line_of_fields d' t' sn' msg')
    in Hline.
  apply fields_unique in Hline as (-> & -> & -> & ->); auto.
Qed.

(** X1: a line without a newline is accepted by the pattern, with the
    groups [d], [t], [sn], [msg], exactly when it is
    [d ++ ", " ++ t ++ " - " ++ sn ++ ": " ++ msg] for a date token [d], a
    time token [t], a non-empty [sn] without colon and a non-empty [msg]:
    the fields of a line are determined by the line. *)
Theorem line_grammar line d t sn msg :
  ~ In newline line ->
  (re_match app.pattern line = Some ([d; t; sn; msg], []) <->
   line = line_of_fields d t sn msg /\
   date_token d /\ time_token t /\ sn <> [] /\ ~ In ":"%char sn /\
   msg <> []).
Proof.
  intros Hnl. split.
  - intros M.
    destruct (pattern_shape _ _ _ M)
      as (d0 & t0 & sn0 & msg0 & E & Hline & Hd & Ht & Hsn & Hc & Hm & _).
    injection E as <- <- <- <-. rewrite app_nil_r in Hline. auto 10.
  - intros (-> & Hd & Ht & Hsn & Hc & Hm). now apply line_accepted.
Qed.

Lemma line_grammar_witness :
  re_match app.pattern (lit "1/2/23, 10:00 - A B: x: y") =
  Some ([lit "1/2/23"; lit "10:00"; lit "A B"; lit "x: y"], []).
Proof.
  apply (line_grammar (lit "1/2/23, 10:00 - A B: x: y")).
  - vm_compute. intuition discriminate.
  - split; [reflexivity|].
    split; [exists (lit "1"), (lit "2"), (lit "23"); vm_compute;
            repeat split; repeat constructor|].
    split; [exists "1"%char, "0"%char, "0"%char, "0"%char; repeat split|].
    split; [discriminate|]. split; [|discriminate].
    vm_compute. intuition discriminate.
Defined.

(** ** Dates *)

Ltac inv_regex :=
  repeat match goal with
    | H : matches (Cat _ _) _ _ _ |- _ => inversion H; subst; clear H
    | H : matches (Alt _ _) _ _ _ |- _ => inversion H; subst; clear H
    | H : matches (Lit _) _ _ _ |- _ => inversion H; subst; clear H
    | H : matches (Group _) _ _ _ |- _ => inversion H; subst; clear H
    | H : matches (Rep _ _ _) _ _ _ |- _ => inversion H; subst; clear H
    end.

Lemma one_char (p : ascii -> bool) (m : str) :
  Forall (fun c => p c = true) m ->
  (1 <= List.length m)%nat -> within (Some 1%nat) (List.length m) ->
  exists c, m = [c] /\ p c = true.
Proof.
  intros H L1 L2. destruct m as [|c [|c' m]]; simpl in *; try lia.
  exists c. inversion H; subst. auto.
Qed.

Ltac one_chars :=
  repeat match goal with
    | H : Forall _ ?s, H1 : (1 <= List.length ?s)%nat,
      H2 : within (Some 1%nat) (List.length ?s) |- _ =>
        destruct (one_char _ s H H1 H2) as (? & -> & ?); clear H H1 H2
    end.

Lemma in_range_digit x y c :
  48 <= code x -> code y <= 57 -> in_range x y c = true -> is_digit c = true.
Proof.
  unfold in_range, is_digit. intros Hx Hy H.
  apply andb_prop in H as [H1 H2]. apply Z.leb_le in H1, H2.
  apply andb_true_intro. split; apply Z.leb_le; lia.
Qed.

Ltac digit_facts :=
  repeat match goal with
    | H : in_range _ _ _ = true |- _ =>
        apply in_range_digit in H; [|vm_compute; discriminate ..]
    end.

Lemma matches_pct_m m c c' :
  matches (directive_regex pct_m) m c c' ->
  c' = c ++ [m] /\ digits m /\ (1 <= List.length m <= 2)%nat.
Proof.
  cbv [directive_regex one]. intros H. inv_regex; one_chars; digit_facts;
    (split; [reflexivity|]); (split; [|simpl; lia]);
    repeat constructor; auto.
Qed.

Lemma matches_pct_d m c c' :
  matches (directive_regex pct_d) m c c' ->
  c' = c ++ [m] /\ Forall (fun x => day_char x = true) m /\
  (1 <= List.length m <= 2)%nat.
Proof.
  cbv [directive_regex one]. intros H. inv_regex; one_chars; digit_facts;
    (split; [reflexivity|]); (split; [|simpl; lia]); unfold day_char;
    repeat constructor;
    repeat match goal with H : is_digit _ = true |- _ => rewrite H end;
    reflexivity.
Qed.

Lemma matches_pct_y m c c' :
  matches (directive_regex pct_y) m c c' ->
  c' = c ++ [m] /\
  exists a b, m = [a; b] /\ is_digit a = true /\ is_digit b = true.
Proof.
  cbv [directive_regex one]. intros H. inv_regex; one_chars.
  split; [reflexivity|]. eexists _, _. simpl. repeat split; auto.
Qed.

Lemma matches_pct_Y m c c' :
  matches (directive_regex pct_Y) m c c' ->
  c' = c ++ [m] /\
  exists a b x y, m = [a; b; x; y] /\ digits m.
Proof.
  cbv [directive_regex one]. intros H. inv_regex; one_chars.
  split; [reflexivity|]. eexists _, _, _, _. split; [reflexivity|].
  repeat constructor; auto.
Qed.

Lemma digits_day_chars s : digits s -> Forall (fun x => day_char x = true) s.
Proof.
  intros H. eapply Forall_impl; [|exact H].
  intros c Hc. unfold day_char. now rewrite Hc.
Qed.

Lemma matches_cat_inv r1 r2 m c c' :
  matches (Cat r1 r2) m c c' ->
  exists m1 m2 c1, m = m1 ++ m2 /\ matches r1 m1 c c1 /\ matches r2 m2 c1 c'.
Proof. intros H. inversion H; subst. eauto 6. Qed.

Lemma matches_lit_inv x m c c' : matches (Lit x) m c c' -> m = [x] /\ c' = c.
Proof. intros H. inversion H; subst. auto. Qed.

(** The token a format accepts, split at its two slashes. *)
Lemma strptime_groups tok fmt d1 d2 d3 dt :
  fmt = [Dir d1; Chr "/"; Dir d2; Chr "/"; Dir d3] ->
  strptime tok fmt = Ok dt ->
  exists g1 g2 g3 f,
    tok = g1 ++ "/"%char :: g2 ++ "/"%char :: g3 /\
    matches (directive_regex d1) g1 [] [g1] /\
    matches (directive_regex d2) g2 [g1] [g1; g2] /\
    matches (directive_regex d3) g3 [g1; g2] [g1; g2; g3] /\
    for_each set_field [(d1, g1); (d2, g2); (d3, g3)] (mk_found None 1 1)
    = Ok f /\
    let y := match f_year f with Some y => y | None => 1900 end in
    check_date y (f_month f) (f_day f) = Ok tt /\
    dt = mk_datetime y (f_month f) (f_day f) 0 0 0 0.
Proof.
  intros -> H. unfold strptime in H.
  destruct (re_match _ tok) as [[groups [|c rest]]|] eqn:M; try discriminate.
  apply re_match_sound in M as (m & E & M). rewrite app_nil_r in E. subst m.
  change (format_regex [Dir d1; Chr "/"; Dir d2; Chr "/"; Dir d3])
    with (Cat (directive_regex d1) (Cat (Lit "/")
           (Cat (directive_regex d2) (Cat (Lit "/") (directive_regex d3)))))
    in M.
  apply matches_cat_inv in M as (g1 & r1 & k1 & -> & M1 & M).
  apply matches_cat_inv in M as (s1 & r2 & k1' & -> & S1 & M).
  apply matches_lit_inv in S1 as [-> ->].
  apply matches_cat_inv in M as (g2 & r3 & k2 & -> & M2 & M).
  apply matches_cat_inv in M as (s2 & g3 & k2' & -> & S2 & M3).
  apply matches_lit_inv in S2 as [-> ->].
  assert (G1 : k1 = [g1]).
  { destruct d1; [apply matches_pct_m in M1|apply matches_pct_d in M1
                 |apply matches_pct_y in M1|apply matches_pct_Y in M1];
      now destruct M1. }
  subst k1.
  assert (G2 : k2 = [g1; g2]).
  { destruct d2; [apply matches_pct_m in M2|apply matches_pct_d in M2
                 |apply matches_pct_y in M2|apply matches_pct_Y in M2];
      now destruct M2. }
  subst k2.
  assert (G3 : groups = [g1; g2; g3]).
  { destruct d3; [apply matches_pct_m in M3|apply matches_pct_d in M3
                 |apply matches_pct_y in M3|apply matches_pct_Y in M3];
      now destruct M3. }
  subst groups.
  cbn [directives combine] in H.
  destruct (for_each set_field _ _) as [f|e] eqn:F; [|discriminate].
  cbn [bind] in H.
  destruct (check_date _ _ _) as [[]|e] eqn:C; [|discriminate].
  cbn [bind] in H. injection H as <-.
  exists g1, g2, g3, f. repeat split; auto.
Qed.

Lemma strptime_valid tok fmt dt : strptime tok fmt = Ok dt -> valid_date dt.
Proof.
  unfold strptime.
  destruct (re_match _ tok) as [[groups [|c rest]]|]; try discriminate.
  destruct (for_each set_field _ _) as [f|e]; [|discriminate]. cbn [bind].
  unfold check_date.
  match goal with |- context [if ?b then _ else _] => destruct b eqn:B end;
    [|discriminate].
  cbn [bind]. intros [= <-].
  repeat (apply andb_prop in B as [B ?]).
  unfold valid_date. simpl. repeat split; try reflexivity;
    try (now apply Z.leb_le).
Qed.

Lemma two_digit_year_window a b n :
  is_digit a = true -> is_digit b = true -> py_int [a; b] = Ok n ->
  1969 <= year_of_two_digits n <= 2068.
Proof.
  intros Ha Hb H. destruct (py_int_two_digits a b Ha Hb) as [E R].
  rewrite E in H.
  assert (n = 10 * digit_value a + digit_value b) as -> by congruence.
  unfold year_of_two_digits.
  set (v := 10 * digit_value a + digit_value b) in *. clearbody v.
  destruct (Z.leb_spec v 68); cbv iota; lia.
Qed.

Lemma strptime_mdy_fields tok dt :
  strptime tok fmt_mdy = Ok dt ->
  exists m dd yy n,
    tok = m ++ "/"%char :: dd ++ "/"%char :: yy /\
    Forall (fun x => day_char x = true) m /\
    Forall (fun x => day_char x = true) dd /\
    List.length yy = 2%nat /\
    py_int m = Ok (month dt) /\ py_int dd = Ok (day dt) /\
    py_int yy = Ok n /\ year dt = year_of_two_digits n /\
    1969 <= year dt <= 2068.
Proof.
  intros H.
  destruct (strptime_groups tok fmt_mdy pct_m pct_d pct_y dt eq_refl H)
    as (g1 & g2 & g3 & f & -> & M1 & M2 & M3 & F & _ & ->).
  apply matches_pct_m in M1 as (_ & D1 & _).
  apply matches_pct_d in M2 as (_ & D2 & _).
  apply matches_pct_y in M3 as (_ & a & b & -> & Ha & Hb).
  cbn [for_each set_field] in F.
  destruct (py_int g1) as [n1|] eqn:P1; [|discriminate]. cbn [bind] in F.
  destruct (py_int g2) as [n2|] eqn:P2; [|discriminate]. cbn [bind] in F.
  destruct (py_int [a; b]) as [n3|] eqn:P3; [|discriminate]. cbn [bind] in F.
  injection F as <-. cbn.
  exists g1, g2, [a; b], n3. repeat split; auto.
  - now apply digits_day_chars.
  - now apply (two_digit_year_window a b).
  - now apply (two_digit_year_window a b).
Qed.

Lemma strptime_dmY_fields tok dt :
  strptime tok fmt_dmY = Ok dt ->
  exists dd m yy,
    tok = dd ++ "/"%char :: m ++ "/"%char :: yy /\
    Forall (fun x => day_char x = true) dd /\
    Forall (fun x => day_char x = true) m /\
    List.length yy = 4%nat /\
    py_int m = Ok (month dt) /\ py_int dd = Ok (day dt) /\
    py_int yy = Ok (year dt).
Proof.
  intros H.
  destruct (strptime_groups tok fmt_dmY pct_d pct_m pct_Y dt eq_refl H)
    as (g1 & g2 & g3 & f & -> & M1 & M2 & M3 & F & _ & ->).
  apply matches_pct_d in M1 as (_ & D1 & _).
  apply matches_pct_m in M2 as (_ & D2 & _).
  apply matches_pct_Y in M3 as (_ & a & b & x & y & -> & _).
  cbn [for_each set_field] in F.
  destruct (py_int g1) as [n1|] eqn:P1; [|discriminate]. cbn [bind] in F.
  destruct (py_int g2) as [n2|] eqn:P2; [|discriminate]. cbn [bind] in F.
  destruct (py_int [a; b; x; y]) as [n3|] eqn:P3; [|discriminate].
  cbn [bind] in F. injection F as <-. cbn.
  exists g1, g2, [a; b; x; y]. repeat split; auto.
  now apply digits_day_chars.
Qed.

Lemma slashes_unique a b y a' b' y' :
  Forall (fun x => day_char x = true) a ->
  Forall (fun x => day_char x = true) b ->
  Forall (fun x => day_char x = true) a' ->
  Forall (fun x => day_char x = true) b' ->
  a ++ "/"%char :: b ++ "/"%char :: y = a' ++ "/"%char :: b' ++ "/"%char :: y' ->
  a = a' /\ b = b' /\ y = y'.
Proof.
  intros Ha Hb Ha' Hb' E.
  apply (split_unique day_char) in E as (-> & _ & E); auto.
  apply (split_unique day_char) in E as (-> & _ & ->); auto.
Qed.

(** X2: which format reads a date token [a/b/y] is decided by the length
    of the year alone.  A two-digit year is read month first and lands in
    1969..2068; a four-digit year is read day first; a token with a
    three-digit year is always skipped. *)
Theorem date_format_by_year_length a b y :
  digits a -> digits b -> digits y ->
  let tok := a ++ "/"%char :: b ++ "/"%char :: y in
  (forall dt, app.resolve_date tok = Ok (Some dt) ->
     (List.length y = 2%nat /\
      py_int a = Ok (month dt) /\ py_int b = Ok (day dt) /\
      (exists n, py_int y = Ok n /\ year dt = year_of_two_digits n) /\
      1969 <= year dt <= 2068) \/
     (List.length y = 4%nat /\
      py_int b = Ok (month dt) /\ py_int a = Ok (day dt) /\
      py_int y = Ok (year dt))) /\
  (List.length y = 3%nat -> app.resolve_date tok = Ok None).
Proof.
  intros Ha Hb Hy tok.
  apply digits_day_chars in Ha, Hb.
  assert (Hmdy : forall dt, strptime tok fmt_mdy = Ok dt ->
            List.length y = 2%nat /\
            py_int a = Ok (month dt) /\ py_int b = Ok (day dt) /\
            (exists n, py_int y = Ok n /\ year dt = year_of_two_digits n) /\
            1969 <= year dt <= 2068).
  { intros dt H.
    destruct (strptime_mdy_fields _ _ H)
      as (m & dd & yy & n & E & Dm & Dd & L & Pm & Pd & Py & Y & W).
    apply slashes_unique in E as (-> & -> & ->); eauto 10. }
  assert (HdmY : forall dt, strptime tok fmt_dmY = Ok dt ->
            List.length y = 4%nat /\
            py_int b = Ok (month dt) /\ py_int a = Ok (day dt) /\
            py_int y = Ok (year dt)).
  { intros dt H.
    destruct (strptime_dmY_fields _ _ H)
      as (dd & m & yy & E & Dd & Dm & L & Pm & Pd & Py).
    apply slashes_unique in E as (-> & -> & ->); auto. }
  split.
  - intros dt R.
    destruct (resolve_date_cases tok)
      as [(d & S & R')|[(_ & d & S & R')|(_ & _ & R')]];
      rewrite R' in R; try discriminate; injection R as ->.
    + left. now apply Hmdy.
    + right. now apply HdmY.
  - intros L.
    destruct (resolve_date_cases tok)
      as [(d & S & _)|[(_ & d & S & _)|(_ & _ & R')]]; [| |exact R'].
    + apply Hmdy in S as (L' & _). lia.
    + apply HdmY in S as (L' & _). lia.
Qed.

Lemma date_format_by_year_length_witness :
  app.resolve_date (lit "3/4/123") = Ok None.
Proof.
  apply (date_format_by_year_length (lit "3") (lit "4") (lit "123"));
    try (repeat constructor); reflexivity.
Defined.

Lemma drop_while_incl p s c : In c (drop_while p s) -> In c s.
Proof.
  induction s as [|x s IH]; simpl; [auto|].
  destruct (p x); [intros H; right; now apply IH|auto].
Qed.

Lemma strip_incl s c : In c (strip s) -> In c s.
Proof.
  unfold strip, rstrip, lstrip. intros H.
  apply in_rev, drop_while_incl, in_rev, drop_while_incl in H. exact H.
Qed.

Lemma parsed_record_date file_content df r :
  app.parse_chat file_content = Ok (Some df) -> In r (rows df) ->
  valid_date (date r).
Proof.
  rewrite parse_chat_records. intros H Hr.
  destruct (flat_map line_records (split_nl file_content)) as [|m ms] eqn:E;
    [discriminate|].
  injection H as <-. simpl rows in Hr. rewrite <- E in Hr. clear E.
  apply in_flat_map in Hr as (line & _ & Hr).
  destruct (line_cases line) as [N|(d & t & sn & msg & rest & dt & M & R & L)].
  - rewrite (no_record_records _ N) in Hr. destruct Hr.
  - rewrite L in Hr. destruct Hr as [<-|[]]. simpl.
    destruct (resolve_date_cases d)
      as [(x & S & R')|[(_ & x & S & R')|(_ & _ & R')]];
      rewrite R' in R; try discriminate; injection R as ->;
      now apply strptime_valid in S.
Qed.

(** X3: every record [parse_chat] returns has a date of the calendar at
    midnight, a time token of two digits, a colon and two digits, a sender
    without colon and without white space at its ends, and a non-empty
    message without newline. *)
Theorem record_invariant file_content df r :
  app.parse_chat file_content = Ok (Some df) -> In r (rows df) ->
  valid_date (date r) /\ time_token (time r) /\
  ~ In ":"%char (sender r) /\ no_surrounding_space (sender r) /\
  message r <> [] /\ ~ In newline (message r).
Proof.
  intros H Hr. split; [now apply (parsed_record_date file_content df)|].
  rewrite parse_chat_records in H.
  destruct (flat_map line_records (split_nl file_content)) as [|m ms] eqn:E;
    [discriminate|].
  injection H as <-. simpl rows in Hr. rewrite <- E in Hr. clear E.
  apply in_flat_map in Hr as (line & _ & Hr).
  destruct (line_cases line) as [N|(d & t & sn & msg & rest & dt & M & R & L)].
  - rewrite (no_record_records _ N) in Hr. destruct Hr.
  - rewrite L in Hr. destruct Hr as [<-|[]]. simpl.
    destruct (pattern_shape _ _ _ M)
      as (? & ? & ? & ? & E & _ & _ & Ht & _ & Hc & Hm & Hn & _).
    injection E as <- <- <- <-.
    repeat split; auto; try apply strip_no_surrounding_space.
    intros H. now apply Hc, strip_incl.
Qed.

Lemma record_invariant_witness :
  valid_date (mk_datetime 2023 12 1 0 0 0 0).
Proof.
  apply (record_invariant one_message_text one_message_frame
           (mk_message (mk_datetime 2023 12 1 0 0 0 0) (lit "09:15")
              (lit "Alice") (lit "hi"))).
  - vm_compute. reflexivity.
  - left. reflexivity.
Defined.

(** ** The strict parser against the tolerant one *)

Lemma matches_strict_date m c c' :
  matches (cat_all [Rep is_digit 2 (Some 2%nat); Lit "/";
                    Rep is_digit 2 (Some 2%nat); Lit "/";
                    Rep is_digit 4 (Some 4%nat)]) m c c' ->
  strict_date_token m /\ c' = c.
Proof.
  cbn. intros H. inv_matches. split; [|reflexivity].
  match goal with
  | |- strict_date_token (?a ++ _ ++ ?b ++ _ ++ ?y) => exists a, b, y
  end.
  unfold within, digits in *. simpl. repeat split; auto; lia.
Qed.

Lemma strict_date_token_date d : strict_date_token d -> date_token d.
Proof.
  intros (a & b & y & -> & Ha & Hb & Hy & La & Lb & Ly).
  exists a, b, y. repeat split; auto; lia.
Qed.

Lemma strict_pattern_shape line groups rest :
  re_match whatsapp_analyzer.pattern line = Some (groups, rest) ->
  exists d t sn msg,
    groups = [d; t; sn; msg] /\
    line = line_of_fields d t sn msg ++ rest /\
    strict_date_token d /\ time_token t /\
    sn <> [] /\ ~ In ":"%char sn /\ msg <> [] /\
    (forall c r, rest = c :: r -> c = newline).
Proof.
  unfold re_match. intros H.
  change whatsapp_analyzer.pattern with
    (Cat (Group (cat_all [Rep is_digit 2 (Some 2%nat); Lit "/";
                          Rep is_digit 2 (Some 2%nat); Lit "/";
                          Rep is_digit 4 (Some 4%nat)]))
      (Cat (text ", ")
        (Cat (Group (cat_all [Rep is_digit 2 (Some 2%nat); Lit ":";
                              Rep is_digit 2 (Some 2%nat)]))
          (Cat (text " - ")
            (Cat (Group (Rep (is_not ":") 1 None))
              (Cat (text ": ") (Group (Rep dot 1 None)))))))) in H.
  apply run_cat in H as (d & s1 & c1 & -> & M1 & H).
  apply run_cat in H as (m2 & s2 & c2 & -> & M2 & H).
  apply run_cat in H as (t & s3 & c3 & -> & M3 & H).
  apply run_cat in H as (m4 & s4 & c4 & -> & M4 & H).
  apply run_cat in H as (sn & s5 & c5 & -> & M5 & H).
  apply run_cat in H as (m6 & s6 & c6 & -> & M6 & H).
  simpl in H.
  apply rep_greedy in H as (msg & s7 & -> & D7 & L7 & Hk & Hmax);
    [|discriminate].
  replace (List.length (msg ++ s7) - List.length s7)%nat
    with (List.length msg + 0)%nat in Hk by (rewrite length_app; lia).
  rewrite firstn_app_2 in Hk. simpl in Hk. rewrite app_nil_r in Hk.
  injection Hk as <- <-.
  apply matches_group in M1 as (c1' & M1 & ->).
  apply matches_strict_date in M1 as [Hd ->].
  apply matches_text in M2 as [-> ->]; [|discriminate].
  apply matches_group in M3 as (c3' & M3 & ->).
  apply matches_time in M3 as [Ht ->].
  apply matches_text in M4 as [-> ->]; [|discriminate].
  apply matches_group in M5 as (c5' & M5 & ->).
  inversion M5 as [|? ? ? ? ? F5 L5 _| | | |]; subst.
  apply matches_text in M6 as [-> ->]; [|discriminate].
  exists d, t, sn, msg.
  split; [reflexivity|].
  split; [unfold line_of_fields; now rewrite <- ?app_assoc|].
  split; [exact Hd|]. split; [exact Ht|].
  split; [intros ->; simpl in L5; lia|].
  split.
  { intros Hin. rewrite Forall_forall in F5. specialize (F5 _ Hin).
    discriminate F5. }
  split; [intros ->; simpl in L7; lia|].
  intros c r ->. specialize (Hmax _ _ eq_refl). unfold dot in Hmax.
  destruct (Ascii.eqb_spec c "010"%char); [assumption|discriminate].
Qed.

(** On a line without newline, what the strict pattern accepts the
    tolerant pattern accepts with the same groups. *)
Lemma strict_line_tolerant line groups rest :
  ~ In newline line ->
  re_match whatsapp_analyzer.pattern line = Some (groups, rest) ->
  exists d t sn msg,
    groups = [d; t; sn; msg] /\ strict_date_token d /\
    re_match app.pattern line = Some ([d; t; sn; msg], []).
Proof.
  intros Hnl M.
  destruct (strict_pattern_shape _ _ _ M)
    as (d & t & sn & msg & -> & Hline & Hd & Ht & Hsn & Hc & Hm & Hr).
  assert (rest = []) as ->.
  { destruct rest as [|c r]; [reflexivity|].
    rewrite (Hr c r eq_refl) in Hline. exfalso. apply Hnl.
    rewrite Hline. apply in_or_app. right. now left. }
  rewrite app_nil_r in Hline.
  exists d, t, sn, msg. split; [reflexivity|]. split; [exact Hd|].
  subst line. apply line_accepted; auto. now apply strict_date_token_date.
Qed.

Lemma strict_date_not_mdy d :
  strict_date_token d -> strptime d fmt_mdy = Raise ValueError.
Proof.
  intros (a & b & y & -> & Ha & Hb & Hy & La & Lb & Ly).
  destruct (strptime _ fmt_mdy) as [dt|e] eqn:S.
  - exfalso.
    destruct (strptime_mdy_fields _ _ S)
      as (m & dd & yy & n & E & Dm & Dd & L & _).
    apply slashes_unique in E as (_ & _ & ->);
      auto using digits_day_chars. lia.
  - now apply strptime_raises in S as ->.
Qed.

Lemma strict_loop_body messages line :
  ~ In newline line ->
  (strict_line line = false /\
   whatsapp_analyzer.loop_body messages line = Ok messages) \/
  (strict_line line = true /\
   ((exists r, line_records line = [r] /\
       whatsapp_analyzer.loop_body messages line = Ok (messages ++ [r])) \/
    (no_record line /\
       whatsapp_analyzer.loop_body messages line = Raise ValueError))).
Proof.
  intros Hnl. unfold strict_line, whatsapp_analyzer.loop_body.
  destruct (re_match whatsapp_analyzer.pattern line) as [[groups rest]|] eqn:M;
    [right|left; auto].
  split; [reflexivity|].
  destruct (strict_line_tolerant _ _ _ Hnl M)
    as (d & t & sn & msg & -> & Hd & A).
  pose proof (strict_date_not_mdy _ Hd) as E1.
  cbn [unpack4 bind].
  unfold line_records, app.loop_body, app.resolve_date. rewrite A.
  destruct (strptime d fmt_dmY) as [dt|e] eqn:E2.
  - left. exists (mk_message dt t (strip sn) msg).
    cbn [unpack4 bind]. rewrite E1, E2. auto.
  - right. pose proof (strptime_raises _ _ _ E2) as ->.
    split; [|reflexivity]. right. now exists d, t, sn, msg, [].
Qed.

Lemma strict_for_each lines :
  Forall (fun l => ~ In newline l) lines ->
  forall messages,
    (for_each whatsapp_analyzer.loop_body lines messages =
       Ok (messages ++ flat_map line_records (filter strict_line lines)) /\
     forall l, In l lines -> strict_line l = true -> ~ no_record l) \/
    (for_each whatsapp_analyzer.loop_body lines messages = Raise ValueError /\
     exists l, In l lines /\ strict_line l = true /\ no_record l).
Proof.
  induction 1 as [|l lines Hl _ IH]; intros messages.
  - left. simpl. rewrite app_nil_r. split; [reflexivity|intros l []].
  - cbn [for_each filter].
    destruct (strict_loop_body messages l Hl)
      as [[S B]|[S [(r & R & B)|[N B]]]]; rewrite B, S; cbn [bind].
    + destruct (IH messages) as [[E A]|[E (l' & I & S' & N)]].
      * left. split; [exact E|].
        intros l' [<-|I] S'; [congruence|now apply A].
      * right. split; [exact E|]. exists l'. simpl. auto.
    + destruct (IH (messages ++ [r])) as [[E A]|[E (l' & I & S' & N)]].
      * left. split.
        { rewrite E. cbn [flat_map]. rewrite R. now rewrite <- app_assoc. }
        intros l' [<-|I] S'; [|now apply A].
        intros N. apply no_record_records in N. congruence.
      * right. split; [exact E|]. exists l'. simpl. auto.
    + right. split; [reflexivity|]. exists l. simpl. auto.
Qed.

Lemma split_nl_lines s : Forall (fun l => ~ In newline l) (split_nl s).
Proof.
  apply Forall_forall. intros l. apply split_nl_no_newline.
Qed.

(** X4: when the strict parser of [whatsapp_analyzer.py] returns, its
    records are the records the tolerant parser makes from the lines the
    strict pattern accepts, in the same order. *)
Theorem strict_parser_records file_content df :
  whatsapp_analyzer.parse_chat file_content = Ok df ->
  rows df =
  flat_map line_records (filter strict_line (split_nl file_content)).
Proof.
  unfold whatsapp_analyzer.parse_chat. intros H.
  destruct (strict_for_each _ (split_nl_lines file_content) [])
    as [[E _]|[E _]]; rewrite E in H; [|discriminate].
  cbn [bind] in H. injection H as <-. reflexivity.
Qed.

Lemma strict_parser_records_witness :
  rows (new_frame [mk_message (mk_datetime 2023 12 1 0 0 0 0) (lit "09:15")
                     (lit "Alice") (lit "hi")]) =
  flat_map line_records
    (filter strict_line (split_nl (lit "01/12/2023, 09:15 - Alice: hi"))).
Proof.
  apply (strict_parser_records (lit "01/12/2023, 09:15 - Alice: hi")).
  vm_compute. reflexivity.
Defined.

(** X5: the strict parser raises exactly when some line that its pattern
    accepts carries a date the tolerant parser would skip, and what it
    raises is [ValueError]. *)
Theorem strict_parser_raises file_content e :
  whatsapp_analyzer.parse_chat file_content = Raise e <->
  e = ValueError /\
  exists line, In line (split_nl file_content) /\
               strict_line line = true /\ no_record line.
Proof.
  unfold whatsapp_analyzer.parse_chat.
  destruct (strict_for_each _ (split_nl_lines file_content) [])
    as [[E A]|[E (l & I & S & N)]]; rewrite E; cbn [bind].
  - split; [discriminate|].
    intros (_ & l & I & S & N). exfalso. now apply (A l).
  - split; [intros [= <-]|intros [-> _]; reflexivity].
    split; [reflexivity|]. now exists l.
Qed.

Lemma strict_parser_raises_witness :
  whatsapp_analyzer.parse_chat (lit "31/02/2023, 10:00 - A: hi") =
  Raise ValueError.
Proof.
  apply strict_parser_raises. split; [reflexivity|].
  exists (lit "31/02/2023, 10:00 - A: hi").
  split; [left; reflexivity|]. split; [vm_compute; reflexivity|].
  right. exists (lit "31/02/2023"), (lit "10:00"), (lit "A"), (lit "hi"), [].
  repeat split; vm_compute; reflexivity.
Defined.

(** ** Exact counts and order of the summaries *)

Section ExactCounts.

Context {K : Type} (eqb : K -> K -> bool).
Hypothesis eqb_eq : forall x y, eqb x y = true <-> x = y.

Lemma eqb_same x : eqb x x = true.
Proof. now apply eqb_eq. Qed.

Lemma count_of_bump k0 k (s : Series K) :
  count_of eqb k (bump eqb k0 s) =
  (count_of eqb k s + if eqb k k0 then 1 else 0)%nat.
Proof.
  induction s as [|[k' n] s IH]; simpl.
  - destruct (eqb k k0); reflexivity.
  - destruct (eqb k0 k') eqn:E0; simpl.
    + apply eqb_eq in E0 as <-. destruct (eqb k k0); lia.
    + destruct (eqb k k') eqn:E1; [|exact IH].
      apply eqb_eq in E1 as <-.
      destruct (eqb k k0) eqn:E2; [|lia].
      apply eqb_eq in E2 as <-. rewrite eqb_same in E0. discriminate.
Qed.

Lemma occurrences_cons k x l :
  occurrences eqb k (x :: l) =
  ((if eqb k x then 1 else 0) + occurrences eqb k l)%nat.
Proof. unfold occurrences. simpl. now destruct (eqb k x). Qed.

Lemma count_of_fold l : forall (acc : Series K) k,
  count_of eqb k (fold_left (fun a x => bump eqb x a) l acc) =
  (count_of eqb k acc + occurrences eqb k l)%nat.
Proof.
  induction l as [|x l IH]; intros acc k; simpl.
  - unfold occurrences. simpl. lia.
  - rewrite IH, count_of_bump, occurrences_cons. lia.
Qed.

Lemma count_of_count_keys l k :
  count_of eqb k (count_keys eqb l) = occurrences eqb k l.
Proof. unfold count_keys. now rewrite count_of_fold. Qed.

Lemma keys_bump_cases k0 (s : Series K) :
  (In k0 (keys s) /\ keys (bump eqb k0 s) = keys s) \/
  (~ In k0 (keys s) /\ keys (bump eqb k0 s) = keys s ++ [k0]).
Proof.
  induction s as [|[k' n] s IH]; simpl.
  - right. split; [tauto|reflexivity].
  - destruct (eqb k0 k') eqn:E; simpl.
    + apply eqb_eq in E as <-. left. auto.
    + assert (k' <> k0).
      { intros ->. rewrite eqb_same in E. discriminate. }
      destruct IH as [[I ->]|[I ->]]; [left; auto|right].
      split; [tauto|reflexivity].
Qed.

Lemma NoDup_bump k0 (s : Series K) :
  NoDup (keys s) -> NoDup (keys (bump eqb k0 s)).
Proof.
  intros H. destruct (keys_bump_cases k0 s) as [[_ ->]|[I ->]]; [exact H|].
  apply NoDup_app; [exact H|repeat constructor; tauto|].
  intros x Hx [<-|[]]. contradiction.
Qed.

Lemma NoDup_fold l : forall acc : Series K,
  NoDup (keys acc) ->
  NoDup (keys (fold_left (fun a x => bump eqb x a) l acc)).
Proof.
  induction l as [|x l IH]; intros acc H; simpl; [exact H|].
  now apply IH, NoDup_bump.
Qed.

Lemma count_of_In (s : Series K) k n :
  NoDup (keys s) -> In (k, n) s -> count_of eqb k s = n.
Proof.
  induction s as [|[k' n'] s IH]; simpl; intros H I; [destruct I|].
  inversion H as [|? ? Hk H']; subst.
  destruct I as [[= -> ->]|I].
  - now rewrite eqb_same.
  - destruct (eqb k k') eqn:E; [|now apply IH].
    apply eqb_eq in E as <-. exfalso. apply Hk.
    change k with (fst (k, n)). now apply in_map.
Qed.

Lemma In_count_of (s : Series K) k :
  In k (keys s) -> In (k, count_of eqb k s) s.
Proof.
  induction s as [|[k' n'] s IH]; simpl; intros I; [destruct I|].
  destruct (eqb k k') eqn:E.
  - apply eqb_eq in E as <-. now left.
  - destruct I as [<-|I]; [rewrite eqb_same in E; discriminate|].
    right. now apply IH.
Qed.

Lemma In_dec_keys k (s : Series K) : In k (keys s) \/ ~ In k (keys s).
Proof.
  induction s as [|[k' n] s IH]; simpl; [tauto|].
  destruct (eqb k k') eqn:E.
  - apply eqb_eq in E as <-. auto.
  - destruct IH as [Y|N]; [auto|right].
    intros [<-|Y]; [rewrite eqb_same in E; discriminate|contradiction].
Qed.

Lemma count_of_absent (s : Series K) k :
  ~ In k (keys s) -> count_of eqb k s = 0%nat.
Proof.
  induction s as [|[k' n'] s IH]; simpl; intros I; [reflexivity|].
  destruct (eqb k k') eqn:E.
  - apply eqb_eq in E as <-. tauto.
  - apply IH. tauto.
Qed.

Lemma count_of_pos_in (s : Series K) k :
  count_of eqb k s <> 0%nat -> In k (keys s).
Proof.
  intros H. destruct (In_dec_keys k s) as [Y|N]; [exact Y|].
  now apply count_of_absent in N.
Qed.

Lemma occurrences_pos k l : In k l -> (0 < occurrences eqb k l)%nat.
Proof.
  intros I. unfold occurrences.
  assert (In k (filter (eqb k) l)) by (apply filter_In; auto using eqb_same).
  destruct (filter (eqb k) l); [contradiction|simpl; lia].
Qed.

Lemma count_keys_exact l : counts_exactly eqb l (count_keys eqb l).
Proof.
  split; [apply NoDup_fold; constructor|].
  intros k n. split.
  - intros I.
    assert (Ik : In k (keys (count_keys eqb l))).
    { change k with (fst (k, n)). now apply in_map. }
    split; [now apply keys_count_keys in Ik|].
    rewrite <- count_of_count_keys. symmetry.
    apply count_of_In; [apply NoDup_fold; constructor|exact I].
  - intros [I ->]. rewrite <- count_of_count_keys.
    apply In_count_of, count_of_pos_in. rewrite count_of_count_keys.
    pose proof (occurrences_pos k l I). lia.
Qed.

Lemma counts_exactly_perm l (s s' : Series K) :
  Permutation s s' -> counts_exactly eqb l s -> counts_exactly eqb l s'.
Proof.
  intros P [N E]. split.
  - eapply Permutation_NoDup; [|exact N]. now apply Permutation_map.
  - intros k n. rewrite <- E. split; apply Permutation_in;
      [now apply Permutation_sym|exact P].
Qed.

End ExactCounts.

Section SortedFacts.

Context {A : Type} (le : A -> A -> bool).
Hypothesis le_total : forall x y, le x y = true \/ le y x = true.

Lemma insert_by_sorted x l :
  Sorted (fun a b => le a b = true) l ->
  Sorted (fun a b => le a b = true) (insert_by le x l).
Proof.
  induction 1 as [|y l S IH H]; simpl; [repeat constructor|].
  destruct (le x y) eqn:E.
  - constructor; [now constructor|now constructor].
  - constructor; [exact IH|].
    destruct l as [|z l]; simpl.
    + constructor. destruct (le_total x y); congruence.
    + destruct (le x z); constructor.
      * destruct (le_total x y); congruence.
      * now inversion H.
Qed.

Lemma sort_by_sorted l : Sorted (fun a b => le a b = true) (sort_by le l).
Proof.
  induction l as [|x l IH]; simpl; [constructor|now apply insert_by_sorted].
Qed.

End SortedFacts.

Lemma sort_values_desc_sorted {K : Type} (s : Series K) :
  counts_descending (sort_values_desc s).
Proof.
  unfold counts_descending, sort_values_desc.
  eapply Sorted_ind with (P := fun l => Sorted _ l);
    [constructor| |apply (sort_by_sorted (@count_desc K))].
  - intros a l _ S H. constructor; [exact S|].
    destruct H; constructor. unfold count_desc in *. now apply Nat.leb_le.
  - intros x y. unfold count_desc.
    destruct (Nat.leb_spec (snd y) (snd x)); [now left|right].
    apply Nat.leb_le. lia.
Qed.

Lemma groupby_size_sorted {K : Type} eqb (le : K -> K -> bool) (l : list K) :
  (forall x y, le x y = true \/ le y x = true) ->
  keys_ascending le (groupby_size eqb le l).
Proof.
  intros T. unfold keys_ascending, groupby_size.
  apply (sort_by_sorted (key_asc le)). intros x y. apply T.
Qed.

Lemma str_eqb_eq a b : str_eqb a b = true <-> a = b.
Proof.
  revert b. induction a as [|x a IH]; intros [|y b]; simpl;
    try (split; [discriminate|discriminate]); [tauto|].
  rewrite andb_true_iff, Ascii.eqb_eq, IH.
  split; [intros [-> ->]; reflexivity|intros [= -> ->]; auto].
Qed.

Lemma lex_compare_eq a b : lex_compare a b = Eq <-> a = b.
Proof.
  revert b. induction a as [|x a IH]; intros [|y b]; simpl;
    try (split; [discriminate|discriminate]); [tauto|].
  destruct (Z.compare_spec x y) as [->|H|H].
  - rewrite IH. split; [now intros ->|now intros [= ->]].
  - split; [discriminate|intros [= -> _]; lia].
  - split; [discriminate|intros [= -> _]; lia].
Qed.

Lemma dt_eqb_eq a b : dt_eqb a b = true <-> a = b.
Proof.
  unfold dt_eqb, dt_compare.
  destruct (lex_compare (dt_fields a) (dt_fields b)) eqn:E.
  - apply lex_compare_eq in E. destruct a, b. simpl in E.
    injection E as -> -> -> -> -> -> ->. tauto.
  - split; [discriminate|]. intros ->.
    rewrite lex_compare_refl in E. discriminate.
  - split; [discriminate|]. intros ->.
    rewrite lex_compare_refl in E. discriminate.
Qed.

Lemma value_counts_exact {K : Type} (eqb : K -> K -> bool) l :
  (forall x y, eqb x y = true <-> x = y) ->
  counts_exactly eqb l (value_counts eqb l) /\
  counts_descending (value_counts eqb l).
Proof.
  intros H. split; [|apply sort_values_desc_sorted].
  eapply counts_exactly_perm; [apply sort_by_perm|].
  now apply count_keys_exact.
Qed.

Lemma groupby_size_exact {K : Type} (eqb le : K -> K -> bool) l :
  (forall x y, eqb x y = true <-> x = y) ->
  counts_exactly eqb l (groupby_size eqb le l).
Proof.
  intros H. eapply counts_exactly_perm; [apply sort_by_perm|].
  now apply count_keys_exact.
Qed.

(** X6: the participant summary lists every sender of a filtered record
    once, with the number of filtered records of that sender, and no one
    else; the counts never increase down the list. *)
Theorem participant_summary_exact df start_date end_date :
  empty df = false -> well_timed df ->
  exists p d h df',
    app.analyze_chat (Some df) start_date end_date = Ok ((Some p, d, h), df') /\
    counts_exactly str_eqb
      (map sender (rows (app.filtered df start_date end_date))) p /\
    counts_descending p.
Proof.
  intros He Hw. eexists _, _, _, _.
  split; [apply (analyze_chat_returns df start_date end_date He Hw)|].
  apply value_counts_exact, str_eqb_eq.
Qed.

Lemma participant_summary_exact_witness :
  exists p d h df',
    app.analyze_chat (Some one_message_frame) None None =
    Ok ((Some p, d, h), df') /\
    counts_exactly str_eqb [lit "Alice"] p.
Proof.
  destruct (parse_chat_well_timed one_message_text one_message_frame)
    as (He & Hw & _); [vm_compute; reflexivity|].
  destruct (participant_summary_exact one_message_frame None None He Hw)
    as (p & d & h & df' & A & C & _).
  now exists p, d, h, df'.
Defined.

(** X7: the daily summary lists every date of a filtered record once, with
    the number of filtered records of that date; the counts never increase
    down the list and they sum to the number of filtered records. *)
Theorem daily_summary_exact df start_date end_date :
  empty df = false -> well_timed df ->
  exists p d h df',
    app.analyze_chat (Some df) start_date end_date = Ok ((p, Some d, h), df') /\
    counts_exactly dt_eqb
      (map date (rows (app.filtered df start_date end_date))) d /\
    counts_descending d /\
    total d = List.length (rows (app.filtered df start_date end_date)).
Proof.
  intros He Hw. eexists _, _, _, _.
  split; [apply (analyze_chat_returns df start_date end_date He Hw)|].
  split; [|split].
  - eapply counts_exactly_perm; [apply sort_by_perm|].
    apply groupby_size_exact, dt_eqb_eq.
  - apply sort_values_desc_sorted.
  - unfold sort_values_desc.
    now rewrite total_sort_by, total_groupby_size, length_map.
Qed.

Lemma daily_summary_exact_witness :
  exists p d h df',
    app.analyze_chat (Some one_message_frame) None None =
    Ok ((p, Some d, h), df') /\
    counts_exactly dt_eqb [mk_datetime 2023 12 1 0 0 0 0] d.
Proof.
  destruct (parse_chat_well_timed one_message_text one_message_frame)
    as (He & Hw & _); [vm_compute; reflexivity|].
  destruct (daily_summary_exact one_message_frame None None He Hw)
    as (p & d & h & df' & A & C & _).
  now exists p, d, h, df'.
Defined.

(** X8: the hourly summary lists every leading hour of a filtered record
    once, with the number of filtered records of that hour, by ascending
    hour. *)
Theorem hourly_summary_exact df start_date end_date :
  empty df = false -> well_timed df ->
  exists p d h df',
    app.analyze_chat (Some df) start_date end_date = Ok ((p, d, Some h), df') /\
    counts_exactly Z.eqb
      (map (fun r => leading_hour (time r))
         (rows (app.filtered df start_date end_date))) h /\
    keys_ascending Z.leb h.
Proof.
  intros He Hw. eexists _, _, _, _.
  split; [apply (analyze_chat_returns df start_date end_date He Hw)|].
  split.
  - apply groupby_size_exact, Z.eqb_eq.
  - apply groupby_size_sorted. intros x y.
    destruct (Z.leb_spec x y); [now left|right]. apply Z.leb_le. lia.
Qed.

Lemma hourly_summary_exact_witness :
  exists p d h df',
    app.analyze_chat (Some one_message_frame) None None =
    Ok ((p, d, Some h), df') /\
    counts_exactly Z.eqb [9] h.
Proof.
  destruct (parse_chat_well_timed one_message_text one_message_frame)
    as (He & Hw & _); [vm_compute; reflexivity|].
  destruct (hourly_summary_exact one_message_frame None None He Hw)
    as (p & d & h & df' & A & C & _).
  now exists p, d, h, df'.
Defined.

(** ** Order of dates *)

Lemma lex_compare_trans a : forall b c,
  lex_compare a b <> Gt -> lex_compare b c <> Gt -> lex_compare a c <> Gt.
Proof.
  induction a as [|x a IH]; intros [|y b] [|z c]; simpl; try congruence.
  destruct (Z.compare_spec x y), (Z.compare_spec y z), (Z.compare_spec x z);
    subst; try congruence; try lia; try apply IH.
Qed.

Lemma lex_compare_total a : forall b,
  lex_compare a b = Gt -> lex_compare b a <> Gt.
Proof.
  induction a as [|x a IH]; intros [|y b]; simpl; try congruence.
  destruct (Z.compare_spec x y), (Z.compare_spec y x);
    subst; try congruence; try lia. apply IH.
Qed.

Lemma dt_leb_trans a b c :
  dt_leb a b = true -> dt_leb b c = true -> dt_leb a c = true.
Proof.
  unfold dt_leb, dt_compare. intros H1 H2.
  pose proof (lex_compare_trans (dt_fields a) (dt_fields b) (dt_fields c)) as T.
  destruct (lex_compare (dt_fields a) (dt_fields b)),
           (lex_compare (dt_fields b) (dt_fields c)),
           (lex_compare (dt_fields a) (dt_fields c));
    try reflexivity; try discriminate; exfalso; apply T; congruence.
Qed.

Lemma dt_leb_total a b : dt_leb a b = true \/ dt_leb b a = true.
Proof.
  unfold dt_leb, dt_compare.
  pose proof (lex_compare_total (dt_fields a) (dt_fields b)) as T.
  destruct (lex_compare (dt_fields a) (dt_fields b)); auto.
  right. destruct (lex_compare (dt_fields b) (dt_fields a)); auto.
  exfalso. now apply T.
Qed.

(** X9: with the start after the end, no row passes the filter, and on a
    non-empty frame of parsed records [analyze_chat] then returns three
    empty summaries (not [None]) and leaves the frame as it was. *)
Theorem start_after_end df s e :
  dt_leb s e = false ->
  rows (app.filtered df (Some s) (Some e)) = [] /\
  (empty df = false -> well_timed df ->
   app.analyze_chat (Some df) (Some s) (Some e) =
   Ok ((Some [], Some [], Some []), Some df)).
Proof.
  intros H.
  assert (E : rows (app.filtered df (Some s) (Some e)) = []).
  { rewrite filtered_rows.
    destruct (filter (in_bounds (Some s) (Some e)) (rows df)) as [|r l] eqn:F;
      [reflexivity|].
    assert (I : In r (filter (in_bounds (Some s) (Some e)) (rows df)))
      by (rewrite F; now left).
    apply filter_In in I as [_ B]. unfold in_bounds, dt_geb in B.
    apply andb_prop in B as [B1 B2].
    rewrite (dt_leb_trans _ _ _ B1 B2) in H. discriminate. }
  split; [exact E|].
  intros He Hw.
  rewrite (analyze_chat_returns df (Some s) (Some e) He Hw).
  cbv zeta. rewrite E. reflexivity.
Qed.

Lemma start_after_end_witness :
  app.analyze_chat (Some one_message_frame) (Some dec_2_end)
    (Some dec_2_start) =
  Ok ((Some [], Some [], Some []), Some one_message_frame).
Proof.
  destruct (parse_chat_well_timed one_message_text one_message_frame)
    as (He & Hw & _); [vm_compute; reflexivity|].
  apply (start_after_end one_message_frame dec_2_end dec_2_start);
    [reflexivity|exact He|exact Hw].
Defined.

(** ** Composition of texts *)

Lemma records_of_parse file_content :
  records_of (app.parse_chat file_content) =
  flat_map line_records (split_nl file_content).
Proof.
  rewrite parse_chat_records.
  now destruct (flat_map line_records (split_nl file_content)).
Qed.

Lemma line_records_length line : (List.length (line_records line) <= 1)%nat.
Proof.
  destruct (line_cases line) as [N|(d & t & sn & msg & rest & dt & _ & _ & ->)];
    [rewrite (no_record_records _ N)|]; simpl; lia.
Qed.

(** X10: parsing two texts joined by a newline gives the records of the
    first followed by the records of the second; a text never gives more
    records than it has lines. *)
Theorem parse_chat_concat a b :
  records_of (app.parse_chat (a ++ newline :: b)) =
  records_of (app.parse_chat a) ++ records_of (app.parse_chat b) /\
  (List.length (records_of (app.parse_chat a)) <= List.length (split_nl a))%nat.
Proof.
  rewrite !records_of_parse. split.
  - now rewrite split_nl_app, flat_map_app.
  - induction (split_nl a) as [|l ls IH]; simpl; [lia|].
    rewrite length_app. pose proof (line_records_length l). lia.
Qed.

(** ** [analyze_chat] on frames it cannot read *)

Lemma astype_int_raises l x :
  astype_int l = Raise x <->
  x = ValueError /\ exists s, In s l /\ py_int s = Raise ValueError.
Proof.
  induction l as [|s l IH]; simpl.
  - split; [discriminate|intros (_ & s & [] & _)].
  - destruct (py_int s) as [n|e] eqn:P; cbn [bind].
    + destruct (astype_int l) as [ns|e] eqn:A; cbn [bind].
      * split; [discriminate|]. intros (-> & s' & [<-|I] & P'); [congruence|].
        assert (R : Ok ns = Raise (A:=list Z) ValueError)
          by (apply IH; split; [reflexivity|now exists s']).
        discriminate R.
      * rewrite IH. split.
        -- intros (-> & s' & I & P'). split; [reflexivity|].
           exists s'. auto.
        -- intros (-> & s' & [<-|I] & P'); [congruence|].
           split; [reflexivity|]. now exists s'.
    + pose proof (py_int_raises _ _ P) as ->. split.
      * intros [= <-]. split; [reflexivity|]. exists s. auto.
      * now intros [-> _].
Qed.

(** X11: [analyze_chat] raises only [ValueError], and exactly when the
    frame is not empty and the time of some filtered row does not begin
    with an integer literal of two characters. *)
Theorem analyze_chat_raises df start_date end_date x :
  app.analyze_chat df start_date end_date = Raise x <->
  x = ValueError /\
  exists d r, df = Some d /\ empty d = false /\
              In r (rows (app.filtered d start_date end_date)) /\
              py_int (firstn 2 (time r)) = Raise ValueError.
Proof.
  unfold app.analyze_chat. destruct df as [d|].
  2:{ split; [discriminate|]. now intros (_ & d & r & [=] & _). }
  destruct (empty d) eqn:He.
  { split; [discriminate|]. intros (_ & d' & r & [= <-] & E & _). congruence. }
  destruct (astype_int _) as [hours|e] eqn:A; cbn [bind].
  - split; [discriminate|].
    intros (-> & d' & r & [= <-] & _ & I & P). exfalso.
    assert (R : Ok hours = Raise (A:=list Z) ValueError).
    { rewrite <- A. apply astype_int_raises. split; [reflexivity|].
      exists (firstn 2 (time r)). split; [|exact P].
      apply in_map_iff. now exists r. }
    discriminate R.
  - apply astype_int_raises in A as (-> & s & I & P).
    apply in_map_iff in I as (r & <- & I). split.
    + intros [= <-]. split; [reflexivity|]. now exists d, r.
    + now intros [-> _].
Qed.

Lemma analyze_chat_raises_witness :
  app.analyze_chat
    (Some (new_frame [mk_message (mk_datetime 2023 12 1 0 0 0 0)
                        (lit "noon") (lit "Alice") (lit "hi")]))
    None None = Raise ValueError.
Proof.
  apply analyze_chat_raises. split; [reflexivity|].
  eexists _, _. split; [reflexivity|]. split; [reflexivity|].
  split; [left; reflexivity|]. vm_compute. reflexivity.
Defined.

(** ** [main] *)

Lemma date_input_limits_raises value e :
  date_input_limits value = Raise e -> e = ValueError.
Proof.
  unfold date_input_limits.
  destruct ((1 <=? date_year value - 10) && (date_year value + 10 <=? 9999));
    [discriminate|now intros [= <-]].
Qed.

(** What [main] does once [parse_chat] has returned a frame: a date picker
    raises, or the insights are shown. *)
Lemma main_body_insights content df start_pick end_pick :
  app.parse_chat content = Ok (Some df) ->
  exists m ms,
    rows df = m :: ms /\
    let min_date := column_min (date m) (map date ms) in
    let max_date := column_max (date m) (map date ms) in
    let start_date := date_input start_pick (date_of min_date) in
    let end_date := date_input end_pick (date_of max_date) in
    let rs := filter (in_bounds (Some (combine_min start_date))
                                (Some (combine_max end_date))) (rows df) in
    let p := value_counts str_eqb (map sender rs) in
    app.main_body content start_pick end_pick = Raise ValueError \/
    app.main_body content start_pick end_pick =
    Ok (Insights (List.length (rows df)) (List.length p)
          (date_of min_date, date_of max_date) p
          (Some (sort_values_desc (groupby_size dt_eqb dt_leb (map date rs))))
          (Some (groupby_size Z.eqb Z.leb
                   (map (fun r => leading_hour (time r)) rs)))).
Proof.
  intros P. destruct (parse_chat_well_timed _ _ P) as (He & Hw & _).
  destruct (rows df) as [|m ms] eqn:R; [unfold empty in He; now rewrite R in He|].
  exists m, ms. split; [reflexivity|]. intros.
  unfold app.main_body. rewrite P. cbn [bind]. rewrite R.
  fold min_date max_date.
  destruct (date_input_limits (date_of min_date)) as [l1|e1] eqn:L1;
    cbn [bind];
    [|left; now rewrite (date_input_limits_raises _ _ L1)].
  destruct (date_input_limits (date_of max_date)) as [l2|e2] eqn:L2;
    cbn [bind];
    [|left; now rewrite (date_input_limits_raises _ _ L2)].
  right. fold start_date end_date.
  rewrite (analyze_chat_returns df _ _ He Hw). cbn [bind app.shared].
  rewrite filtered_rows, R. reflexivity.
Qed.

(** X12: once a text is uploaded, [main] shows the message for a file
    without valid messages exactly when [parse_chat] returns [None], and it
    never shows the message for an empty date range: the test that guards
    it cannot succeed. *)
Theorem main_pages content start_pick end_pick :
  let shown := app.main (Some content) start_pick end_pick in
  (shown = Error_no_valid_messages <-> app.parse_chat content = Ok None) /\
  shown <> Error_no_data_for_range.
Proof.
  intros shown. subst shown. unfold app.main.
  destruct (app.parse_chat content) as [[df|]|e] eqn:P.
  - destruct (main_body_insights content df start_pick end_pick P)
      as (m & ms & _ & [-> | ->]); split; try discriminate;
      split; discriminate.
  - unfold app.main_body. rewrite P. cbn [bind].
    split; [split; reflexivity|discriminate].
  - exfalso. rewrite parse_chat_records in P. discriminate.
Qed.

Lemma midnight_bounds sd ed r :
  valid_date (date r) ->
  in_bounds (Some (combine_min sd)) (Some (combine_max ed)) r =
  dated_within sd ed r.
Proof.
  intros (_ & _ & _ & Hh & Hm & Hs & Hu).
  unfold in_bounds, dated_within, dt_geb, dt_leb, dt_compare, date_leb.
  destruct sd as [sy sm sd], ed as [ey em ed], r as [[y m d h mi s u] t sn msg].
  simpl in *. subst. cbn.
  f_equal;
    repeat match goal with
           | |- context [Z.compare ?a ?b] => destruct (Z.compare a b)
           end; reflexivity.
Qed.

(** X13: on the insights page the total of messages counts every parsed
    record, whatever the pickers say, while the participant counts add up
    to the number of records dated from the start date to the end date,
    both days included. *)
Theorem main_counts content start_pick end_pick n np range p d h :
  app.main (Some content) start_pick end_pick = Insights n np range p d h ->
  n = List.length (records_of (app.parse_chat content)) /\
  np = List.length p /\
  total p =
  List.length
    (filter (dated_within (date_input start_pick (fst range))
                          (date_input end_pick (snd range)))
            (records_of (app.parse_chat content))).
Proof.
  unfold app.main.
  destruct (app.parse_chat content) as [[df|]|e] eqn:P.
  - destruct (main_body_insights content df start_pick end_pick P)
      as (m & ms & R & [-> | ->]); [discriminate|].
    intros [= <- <- <- <- _ _]. cbn [fst snd records_of].
    split; [reflexivity|]. split; [reflexivity|].
    rewrite total_value_counts, length_map. f_equal.
    apply filter_ext_in. intros r Hr.
    apply (midnight_bounds
             (date_input start_pick
                (date_of (column_min (date m) (map date ms))))
             (date_input end_pick
                (date_of (column_max (date m) (map date ms))))).
    now apply (parsed_record_date content df).
  - unfold app.main_body. rewrite P. discriminate.
  - unfold app.main_body. rewrite P. discriminate.
Qed.

Lemma main_counts_witness :
  3%nat = List.length (records_of (app.parse_chat example_text)).
Proof.
  refine (proj1 (main_counts example_text (Some (mk_date 2023 12 2))
                   (Some (mk_date 2023 12 2)) 3 1
                   (mk_date 2023 12 1, mk_date 2023 12 2)
                   [(lit "Alice", 1%nat)]
                   (Some [(mk_datetime 2023 12 2 0 0 0 0, 1%nat)])
                   (Some [(23, 1%nat)]) _)).
  vm_compute. reflexivity.
Defined.

Lemma column_min_spec others : forall first,
  In (column_min first others) (first :: others) /\
  forall x, In x (first :: others) ->
            dt_leb (column_min first others) x = true.
Proof.
  unfold column_min.
  induction others as [|y others IH]; intros first; simpl.
  - split; [now left|]. intros x [<-|[]]. apply dt_leb_refl.
  - destruct (IH (dt_min first y)) as [I L]. split.
    + destruct I as [E|I]; [|auto]. rewrite <- E. unfold dt_min.
      destruct (dt_leb first y); auto.
    + assert (L1 : dt_leb (dt_min first y) first = true).
      { unfold dt_min. destruct (dt_leb first y) eqn:E;
          [apply dt_leb_refl|].
        destruct (dt_leb_total first y); congruence. }
      assert (L2 : dt_leb (dt_min first y) y = true).
      { unfold dt_min. destruct (dt_leb first y) eqn:E;
          [exact E|apply dt_leb_refl]. }
      assert (L0 := L (dt_min first y) (or_introl eq_refl)).
      intros x [<-|[<-|Hx]].
      * exact (dt_leb_trans _ _ _ L0 L1).
      * exact (dt_leb_trans _ _ _ L0 L2).
      * apply L. now right.
Qed.

Lemma column_max_spec others : forall first,
  In (column_max first others) (first :: others) /\
  forall x, In x (first :: others) ->
            dt_leb x (column_max first others) = true.
Proof.
  unfold column_max.
  induction others as [|y others IH]; intros first; simpl.
  - split; [now left|]. intros x [<-|[]]. apply dt_leb_refl.
  - destruct (IH (dt_max first y)) as [I L]. split.
    + destruct I as [E|I]; [|auto]. rewrite <- E. unfold dt_max.
      destruct (dt_leb first y); auto.
    + assert (L1 : dt_leb first (dt_max first y) = true).
      { unfold dt_max. destruct (dt_leb first y) eqn:E;
          [exact E|apply dt_leb_refl]. }
      assert (L2 : dt_leb y (dt_max first y) = true).
      { unfold dt_max. destruct (dt_leb first y) eqn:E;
          [apply dt_leb_refl|].
        destruct (dt_leb_total first y); congruence. }
      assert (L0 := L (dt_max first y) (or_introl eq_refl)).
      intros x [<-|[<-|Hx]].
      * exact (dt_leb_trans _ _ _ L1 L0).
      * exact (dt_leb_trans _ _ _ L2 L0).
      * apply L. now right.
Qed.

Lemma combine_min_midnight d : valid_date d -> combine_min (date_of d) = d.
Proof.
  intros (_ & _ & _ & Hh & Hm & Hs & Hu). destruct d. simpl in *.
  subst. reflexivity.
Qed.

Lemma combine_max_midnight d :
  valid_date d -> dt_leb d (combine_max (date_of d)) = true.
Proof.
  intros (_ & _ & _ & Hh & Hm & Hs & Hu). destruct d. simpl in *. subst.
  unfold dt_leb, dt_compare. simpl. now rewrite !Z.compare_refl.
Qed.

Lemma filter_all {A : Type} (f : A -> bool) l :
  (forall x, In x l -> f x = true) -> filter f l = l.
Proof.
  induction l as [|x l IH]; intros H; simpl; [reflexivity|].
  rewrite (H x) by now left. f_equal. apply IH. intros y Hy. apply H.
  now right.
Qed.

(** X14: with both date pickers untouched nothing is filtered out: the
    participant, daily and hourly counts of the insights page each add up
    to the total of messages. *)
Theorem main_default_range content n np range p d h :
  app.main (Some content) None None = Insights n np range p d h ->
  total p = n /\
  exists d' h', d = Some d' /\ h = Some h' /\ total d' = n /\ total h' = n.
Proof.
  unfold app.main.
  destruct (app.parse_chat content) as [[df|]|e] eqn:P;
    [|unfold app.main_body; rewrite P; discriminate ..].
  destruct (main_body_insights content df None None P)
    as (m & ms & R & [Hm|Hm]); [rewrite Hm; discriminate|].
  cbv zeta in Hm. cbn [date_input] in Hm.
  rewrite filter_all in Hm.
  - rewrite Hm. intros [= <- _ _ <- <- <-]. split.
    + now rewrite total_value_counts, length_map.
    + eexists _, _. split; [reflexivity|]. split; [reflexivity|].
      unfold sort_values_desc.
      now rewrite total_sort_by, !total_groupby_size, !length_map.
  - intros r Hr.
    assert (V : forall x, In x (date m :: map date ms) -> valid_date x).
    { intros x Hx. change (date m :: map date ms) with (map date (m :: ms)) in Hx.
      rewrite <- R in Hx. apply in_map_iff in Hx as (r' & <- & Hr').
      now apply (parsed_record_date content df). }
    assert (Id : In (date r) (date m :: map date ms)).
    { change (date m :: map date ms) with (map date (m :: ms)).
      rewrite <- R. now apply in_map. }
    destruct (column_min_spec (map date ms) (date m)) as [Imin Lmin].
    destruct (column_max_spec (map date ms) (date m)) as [Imax Lmax].
    unfold in_bounds, dt_geb. apply andb_true_intro. split.
    + rewrite combine_min_midnight by now apply V. now apply Lmin.
    + eapply dt_leb_trans; [now apply Lmax|].
      apply combine_max_midnight. now apply V.
Qed.

Lemma main_default_range_witness :
  total [(lit "Alice", 2%nat); (lit "Bob", 1%nat)] = 3%nat.
Proof.
  refine (proj1 (main_default_range example_text 3 2
                   (mk_date 2023 12 1, mk_date 2023 12 2)
                   [(lit "Alice", 2%nat); (lit "Bob", 1%nat)]
                   (Some [(mk_datetime 2023 12 1 0 0 0 0, 2%nat);
                          (mk_datetime 2023 12 2 0 0 0 0, 1%nat)])
                   (Some [(9, 2%nat); (23, 1%nat)]) _)).
  vm_compute. reflexivity.
Defined.

Lemma main_pages_witness :
  app.main (Some (lit "not a message line")) None None =
  Error_no_valid_messages.
Proof.
  apply (main_pages (lit "not a message line") None None).
  vm_compute. reflexivity.
Defined.

Lemma dt_leb_dates a b :
  valid_date a -> valid_date b ->
  dt_leb a b = date_leb (date_of a) (date_of b).
Proof.
  intros (_ & _ & _ & Hh & Hm & Hs & Hu) (_ & _ & _ & Hh' & Hm' & Hs' & Hu').
  unfold dt_leb, dt_compare, date_leb. destruct a, b. simpl in *. subst. cbn.
  repeat match goal with
         | |- context [Z.compare ?a ?b] => destruct (Z.compare a b)
         end; reflexivity.
Qed.

(** X16: the date range on the insights page runs from the earliest to the
    latest date among all parsed records: every record is dated within it
    and both of its ends are the date of a record. *)
Theorem main_date_range content start_pick end_pick n np lo hi p d h :
  app.main (Some content) start_pick end_pick
  = Insights n np (lo, hi) p d h ->
  let records := records_of (app.parse_chat content) in
  (forall r, In r records ->
     date_leb lo (date_of (date r)) = true /\
     date_leb (date_of (date r)) hi = true) /\
  (exists r, In r records /\ date_of (date r) = lo) /\
  (exists r, In r records /\ date_of (date r) = hi).
Proof.
  unfold app.main.
  destruct (app.parse_chat content) as [[df|]|e] eqn:P;
    [|unfold app.main_body; rewrite P; discriminate ..].
  destruct (main_body_insights content df start_pick end_pick P)
    as (m & ms & R & [-> | ->]); [discriminate|].
  intros [= _ _ <- <- _ _ _]. cbn [records_of].
  assert (V : forall r, In r (rows df) -> valid_date (date r)).
  { intros r Hr. now apply (parsed_record_date content df). }
  assert (D : forall x, In x (date m :: map date ms) ->
                        exists r, In r (rows df) /\ date r = x).
  { intros x Hx. change (date m :: map date ms) with (map date (m :: ms)) in Hx.
    rewrite <- R in Hx. apply in_map_iff in Hx as (r & <- & Hr). eauto. }
  destruct (column_min_spec (map date ms) (date m)) as [Imin Lmin].
  destruct (column_max_spec (map date ms) (date m)) as [Imax Lmax].
  destruct (D _ Imin) as (rmin & Irmin & Emin).
  destruct (D _ Imax) as (rmax & Irmax & Emax).
  split; [|split].
  - intros r Hr.
    assert (Id : In (date r) (date m :: map date ms)).
    { change (date m :: map date ms) with (map date (m :: ms)).
      rewrite <- R. now apply in_map. }
    rewrite <- Emin, <- Emax, <- !dt_leb_dates by auto.
    rewrite Emin, Emax. split; [now apply Lmin|now apply Lmax].
  - exists rmin. now rewrite Emin.
  - exists rmax. now rewrite Emax.
Qed.

Lemma main_date_range_witness :
  exists r, In r (records_of (app.parse_chat example_text)) /\
            date_of (date r) = mk_date 2023 12 1.
Proof.
  refine (proj1 (proj2 (main_date_range example_text None None 3 2
                   (mk_date 2023 12 1) (mk_date 2023 12 2)
                   [(lit "Alice", 2%nat); (lit "Bob", 1%nat)]
                   (Some [(mk_datetime 2023 12 1 0 0 0 0, 2%nat);
                          (mk_datetime 2023 12 2 0 0 0 0, 1%nat)])
                   (Some [(9, 2%nat); (23, 1%nat)]) _))).
  vm_compute. reflexivity.
Defined.

(** ** [main] of the earlier file *)

Lemma line_records_time line r :
  In r (line_records line) -> time_token (time r).
Proof.
  intros Hr.
  destruct (line_cases line) as [N|(d & t & sn & msg & rest & dt & M & _ & L)].
  - rewrite (no_record_records _ N) in Hr. destruct Hr.
  - rewrite L in Hr. destruct Hr as [<-|[]]. simpl.
    destruct (pattern_shape _ _ _ M) as (? & ? & ? & ? & E & _ & _ & Ht & _).
    now injection E as <- <- <- <-.
Qed.

Lemma earlier_analyze_chat_returns df start_date end_date :
  well_timed df ->
  let rs := rows (app.filtered df start_date end_date) in
  let hours := map (fun r => leading_hour (time r)) rs in
  whatsapp_analyzer.analyze_chat df start_date end_date =
  Ok (value_counts str_eqb (map sender rs),
      sort_values_desc (groupby_size dt_eqb dt_leb (map date rs)),
      groupby_size Z.eqb Z.leb hours,
      if app.shared start_date end_date
      then set_hour (app.filtered df start_date end_date) hours
      else df).
Proof.
  intros Hw rs hours. subst rs hours.
  pose proof (astype_int_hours _
                (well_timed_filtered df start_date end_date Hw)) as A.
  unfold whatsapp_analyzer.analyze_chat.
  change (match end_date with
          | Some e =>
              frame_select
                (map (fun r => dt_leb (date r) e)
                   (rows match start_date with
                         | Some s =>
                             frame_select
                               (map (fun r => dt_geb (date r) s) (rows df)) df
                         | None => df
                         end))
                match start_date with
                | Some s =>
                    frame_select
                      (map (fun r => dt_geb (date r) s) (rows df)) df
                | None => df
                end
          | None =>
              match start_date with
              | Some s =>
                  frame_select
                    (map (fun r => dt_geb (date r) s) (rows df)) df
              | None => df
              end
          end) with (app.filtered df start_date end_date).
  cbv zeta. rewrite A. cbn [bind].
  destruct start_date, end_date; reflexivity.
Qed.

(** X15: the earlier [main], which has no handler, ends in [ValueError]
    whenever a line the strict pattern accepts carries a date that does not
    exist, and in [KeyError] whenever the strict pattern accepts no line of
    the upload; when it runs to its end there is a strictly shaped line,
    every such line carries a date that exists, and the page shows the
    insights. *)
Theorem earlier_main_outcomes content start_pick end_pick :
  let run := whatsapp_analyzer.main (Some content) start_pick end_pick in
  let strict_lines := filter strict_line (split_nl content) in
  ((exists line, In line strict_lines /\ no_record line) ->
   run = Raise ValueError) /\
  (strict_lines = [] -> run = Raise KeyError) /\
  (forall shown, run = Ok shown ->
     strict_lines <> [] /\
     (forall line, In line strict_lines -> ~ no_record line) /\
     exists n np range p d h, shown = Insights n np range p d h).
Proof.
  intros run strict_lines. subst run. unfold whatsapp_analyzer.main.
  unfold whatsapp_analyzer.parse_chat.
  destruct (strict_for_each _ (split_nl_lines content) [])
    as [[E A]|[E (l & I & S & N)]]; rewrite E; cbn [bind new_frame rows app].
  - assert (NR : forall line, In line strict_lines -> ~ no_record line).
    { intros line Hl. apply filter_In in Hl as [Hl Hs]. now apply A. }
    fold strict_lines.
    split; [intros (line & Hl & N); exfalso; now apply (NR line)|].
    destruct strict_lines as [|l ls] eqn:SL.
    + cbn [flat_map]. split; [reflexivity|]. discriminate.
    + split; [discriminate|].
      assert (exists m ms, flat_map line_records (l :: ls) = m :: ms)
        as (m & ms & F).
      { cbn [flat_map].
        destruct (line_cases l) as [N|(? & ? & ? & ? & ? & ? & _ & _ & L)].
        - exfalso. apply (NR l); [now left|exact N].
        - rewrite L. simpl. eauto. }
      assert (W : Forall (fun r => time_token (time r))
                    (flat_map line_records (l :: ls))).
      { apply Forall_forall. intros r Hr.
        apply in_flat_map in Hr as (line & _ & Hr).
        now apply (line_records_time line). }
      rewrite F in *.
      destruct (date_input_limits _) as [l1|e1]; cbn [bind];
        [|discriminate].
      destruct (date_input_limits _) as [l2|e2]; cbn [bind];
        [|discriminate].
      rewrite (earlier_analyze_chat_returns (new_frame (m :: ms)) _ _ W).
      cbn [bind]. intros shown [= <-].
      split; [discriminate|]. split; [exact NR|].
      eexists _, _, _, _, _, _. reflexivity.
  - assert (Il : In l strict_lines) by (apply filter_In; auto).
    split; [reflexivity|].
    split; [intros C; rewrite C in Il; destruct Il|discriminate].
Qed.

Lemma earlier_main_outcomes_witness :
  whatsapp_analyzer.main (Some (lit "not a message line")) None None = Raise KeyError.
Proof.
  apply (earlier_main_outcomes (lit "not a message line") None None).
  vm_compute. reflexivity.
Defined.

(** ** The two defects the claims meet *)

(** C2: on a text none of whose lines yields a record, [parse_chat] of
    [app.py] returns [None]; the earlier [parse_chat] of
    [whatsapp_analyzer.py] never does: it returns a frame without rows when
    its pattern accepts no line, and raises [ValueError] when it accepts
    one. *)
Theorem earlier_parse_chat_no_data file_content :
  (forall line, In line (split_nl file_content) -> no_record line) ->
  app.parse_chat file_content = Ok None /\
  ((forall line, In line (split_nl file_content) -> strict_line line = false) /\
   whatsapp_analyzer.parse_chat file_content = Ok (new_frame []) /\
   empty (new_frame []) = true
   \/
   (exists line, In line (split_nl file_content) /\ strict_line line = true) /\
   whatsapp_analyzer.parse_chat file_content = Raise ValueError).
Proof.
  intros H.
  assert (E0 : forall lines,
             (forall line, In line lines -> no_record line) ->
             flat_map line_records lines = []).
  { intros lines Hl. apply flat_map_nil. intros l Il.
    now apply no_record_records, Hl. }
  split.
  - rewrite parse_chat_records, (E0 _ H). reflexivity.
  - unfold whatsapp_analyzer.parse_chat.
    destruct (strict_for_each _ (split_nl_lines file_content) [])
      as [[E A]|[E (l & I & S & N)]]; rewrite E; cbn [bind].
    + left. split; [|split; [|reflexivity]].
      * intros line Il. destruct (strict_line line) eqn:S; [|reflexivity].
        exfalso. apply (A line Il S). now apply H.
      * rewrite E0; [reflexivity|].
        intros line Il. apply filter_In in Il as [Il _]. now apply H.
    + right. split; [now exists l|reflexivity].
Qed.

Lemma earlier_parse_chat_no_data_witness :
  app.parse_chat (lit "not a message line") = Ok None /\
  whatsapp_analyzer.parse_chat (lit "not a message line") = Ok (new_frame []).
Proof.
  destruct (earlier_parse_chat_no_data (lit "not a message line"))
    as [P [(_ & W & _)|((l & I & S) & _)]].
  - intros line [<-|[]]. left. vm_compute. reflexivity.
  - split; [exact P|exact W].
  - exfalso. destruct I as [<-|[]]. vm_compute in S. discriminate S.
Defined.

(** C8: a second call with the same bounds returns the same summaries, but
    the input is not always left as it was: called without bounds on a
    non-empty frame of parsed records, [analyze_chat] writes the column
    ['hour'] into the caller's frame, where a call with a bound leaves the
    frame untouched. *)
Theorem analyze_chat_hour_column_write df :
  empty df = false -> well_timed df ->
  let hours := map (fun r => leading_hour (time r)) (rows df) in
  (exists out,
     app.analyze_chat (Some df) None None =
     Ok (out, Some (set_hour df hours))) /\
  (hour_column df <> Some hours -> set_hour df hours <> df) /\
  (forall s e, app.shared s e = false ->
     exists out, app.analyze_chat (Some df) s e = Ok (out, Some df)) /\
  (forall s e out df',
     app.analyze_chat (Some df) s e = Ok (out, df') ->
     app.analyze_chat df' s e = Ok (out, df')).
Proof.
  intros He Hw hours. split; [|split; [|split]].
  - eexists. apply (analyze_chat_returns df None None He Hw).
  - intros H E. apply H. rewrite <- E. reflexivity.
  - intros s e Hs. eexists.
    rewrite (analyze_chat_returns df s e He Hw), Hs. reflexivity.
  - intros s e out df' H.
    now apply (analyze_chat_idempotent (Some df) s e out df').
Qed.

Lemma analyze_chat_hour_column_write_witness :
  (exists out,
     app.analyze_chat (Some one_message_frame) None None =
     Ok (out, Some (set_hour one_message_frame [9]))) /\
  set_hour one_message_frame [9] <> one_message_frame /\
  (exists out,
     app.analyze_chat (Some one_message_frame) (Some dec_2_start) None =
     Ok (out, Some one_message_frame)).
Proof.
  destruct (parse_chat_well_timed one_message_text one_message_frame)
    as (He & Hw & _); [vm_compute; reflexivity|].
  destruct (analyze_chat_hour_column_write one_message_frame He Hw)
    as (W & N & K & _).
  split; [exact W|]. split; [apply N; discriminate|].
  apply K. reflexivity.
Defined.
